(** * gen_traffic.py: DexSwapTx wire encoding, frame building and pcap writing

    A shallow embedding of [scripts/gen_traffic.py].  Python integers are [Z],
    [bytes] values are lists of [Byte.byte], [struct.pack] is an interpreter of
    the format strings the script uses, exceptions are an error result, and the
    process-wide [random] module is an explicit generator state threaded
    through the scenario constructors in the order the script draws from it. *)

From Stdlib Require Import ZArith QArith Qround List Lia Bool String Ascii.
From Stdlib Require Import Strings.Byte.
From Stdlib Require Import SpecFloat.
Import ListNotations.
Open Scope Z_scope.

(** ** Byte strings *)

Module Bytes.

Definition bytes := list byte.

Definition byte_of_Z (z : Z) : byte :=
  match Byte.of_N (Z.to_N (z mod 256)) with
  | Some b => b
  | None => x00
  end.

Definition Z_of_byte (b : byte) : Z := Z.of_N (Byte.to_N b).

(** [int.to_bytes(n, "little")] of a value already reduced to [n] bytes. *)
Fixpoint le_bytes (n : nat) (v : Z) : bytes :=
  match n with
  | O => []
  | S k => byte_of_Z v :: le_bytes k (v / 256)
  end.

Definition be_bytes (n : nat) (v : Z) : bytes := rev (le_bytes n v).

(** [int.from_bytes(bs, "little")]. *)
Fixpoint le_value (bs : bytes) : Z :=
  match bs with
  | [] => 0
  | b :: r => Z_of_byte b + 256 * le_value r
  end.

Definition be_value (bs : bytes) : Z := le_value (rev bs).

(** The slice [bs[off : off + len]]. *)
Definition slice (off len : nat) (bs : bytes) : bytes := firstn len (skipn off bs).

Definition zeros (n : nat) : bytes := repeat x00 n.

End Bytes.
Import Bytes.

(** ** Exceptions *)

Inductive exn :=
| AssertionError (msg : string)
| StructError
| ValueError
| IndexError
| OverflowError.

Inductive result (A : Type) :=
| Ok (a : A)
| Raise (e : exn).
Arguments Ok {A} a.
Arguments Raise {A} e.

Definition rbind {A B} (r : result A) (k : A -> result B) : result B :=
  match r with
  | Ok a => k a
  | Raise e => Raise e
  end.

Definition is_ok {A} (r : result A) : bool :=
  match r with Ok _ => true | Raise _ => false end.

(** ** [struct.pack] *)

Module Struct.

Inductive byte_order := LittleEndian | BigEndian.

(** The format characters the script uses. *)
Inductive fmt_code :=
| fmt_x              (* pad byte *)
| fmt_B              (* unsigned char *)
| fmt_H              (* unsigned short *)
| fmt_I              (* unsigned int *)
| fmt_i              (* signed int *)
| fmt_Q              (* unsigned long long *)
| fmt_s (n : nat).   (* char[n] *)

Inductive pyval :=
| PyInt (z : Z)
| PyBytes (b : bytes).

Definition digit_of_ascii (c : ascii) : option nat :=
  let n := nat_of_ascii c in
  if (Nat.leb 48 n && Nat.leb n 57)%bool then Some (n - 48)%nat else None.

(** A repeat count in front of ["s"] is the length of one bytes field; in
    front of any other character it repeats the field. *)
Definition items_of_ascii (c : ascii) (count : nat) : option (list fmt_code) :=
  if Ascii.eqb c "x" then Some (repeat fmt_x count)
  else if Ascii.eqb c "B" then Some (repeat fmt_B count)
  else if Ascii.eqb c "H" then Some (repeat fmt_H count)
  else if Ascii.eqb c "I" then Some (repeat fmt_I count)
  else if Ascii.eqb c "i" then Some (repeat fmt_i count)
  else if Ascii.eqb c "Q" then Some (repeat fmt_Q count)
  else if Ascii.eqb c "s" then Some [fmt_s count]
  else None.

Fixpoint parse_codes (s : string) (count : option nat) : option (list fmt_code) :=
  match s with
  | EmptyString =>
      match count with
      | None => Some []
      | Some _ => None
      end
  | String c rest =>
      match digit_of_ascii c with
      | Some d =>
          parse_codes rest
            (Some (10 * match count with Some k => k | None => 0 end + d)%nat)
      | None =>
          match items_of_ascii c (match count with Some k => k | None => 1%nat end) with
          | Some items => option_map (app items) (parse_codes rest None)
          | None => None
          end
      end
  end.

(** Only the standard-size modes ["<"] and [">"] occur in the script. *)
Definition parse_format (fmt : string) : option (byte_order * list fmt_code) :=
  match fmt with
  | String c rest =>
      if Ascii.eqb c "<" then option_map (pair LittleEndian) (parse_codes rest None)
      else if Ascii.eqb c ">" then option_map (pair BigEndian) (parse_codes rest None)
      else None
  | EmptyString => None
  end.

Definition int_bytes (o : byte_order) (n : nat) (v : Z) : bytes :=
  match o with
  | LittleEndian => le_bytes n v
  | BigEndian => be_bytes n v
  end.

(** An unsigned field of [n] bytes: [struct.error] outside [0, 256^n). *)
Definition pack_unsigned (o : byte_order) (n : nat) (v : Z) : result bytes :=
  if (0 <=? v) && (v <? 2 ^ (8 * Z.of_nat n)) then Ok (int_bytes o n v)
  else Raise StructError.

(** A signed field of [n] bytes, two's complement. *)
Definition pack_signed (o : byte_order) (n : nat) (v : Z) : result bytes :=
  if (- 2 ^ (8 * Z.of_nat n - 1) <=? v) && (v <? 2 ^ (8 * Z.of_nat n - 1))
  then Ok (int_bytes o n (v mod 2 ^ (8 * Z.of_nat n)))
  else Raise StructError.

(** A ["ns"] field: the value is truncated or zero-padded to [n] bytes. *)
Definition pack_chars (n : nat) (b : bytes) : bytes := firstn n (b ++ zeros n).

Definition pack_int (o : byte_order) (c : fmt_code) (v : Z) : result bytes :=
  match c with
  | fmt_B => pack_unsigned o 1 v
  | fmt_H => pack_unsigned o 2 v
  | fmt_I => pack_unsigned o 4 v
  | fmt_i => pack_signed o 4 v
  | fmt_Q => pack_unsigned o 8 v
  | _ => Raise StructError
  end.

Fixpoint pack_items (o : byte_order) (items : list fmt_code) (vals : list pyval)
  : result bytes :=
  match items with
  | [] =>
      match vals with
      | [] => Ok []
      | _ :: _ => Raise StructError
      end
  | fmt_x :: items' =>
      rbind (pack_items o items' vals) (fun rest => Ok (x00 :: rest))
  | fmt_s n :: items' =>
      match vals with
      | PyBytes b :: vals' =>
          rbind (pack_items o items' vals') (fun rest => Ok (pack_chars n b ++ rest))
      | _ => Raise StructError
      end
  | c :: items' =>
      match vals with
      | PyInt v :: vals' =>
          rbind (pack_int o c v) (fun field =>
          rbind (pack_items o items' vals') (fun rest => Ok (field ++ rest)))
      | _ => Raise StructError
      end
  end.

Definition pack (fmt : string) (vals : list pyval) : result bytes :=
  match parse_format fmt with
  | Some (o, items) => pack_items o items vals
  | None => Raise StructError
  end.

End Struct.
Import Struct.

(** ** DexSwapTx encoding *)

Definition WIRE_SIZE : Z := 48.

Definition len (b : bytes) : Z := Z.of_nat (List.length b).

Definition encode_dex_swap_tx
  (nonce : Z) (pool_address : bytes) (amount_in min_amount_out token_direction : Z)
  : result bytes :=
  if negb (len pool_address =? 20) then
    Raise (AssertionError "pool_address must be 20 bytes")
  else if negb ((token_direction =? 0) || (token_direction =? 1)) then
    Raise (AssertionError "token_direction must be 0 or 1")
  else
    Struct.pack "<Q20sQQBxxx"
      [ PyInt (Z.land nonce 0xFFFFFFFFFFFFFFFF);
        PyBytes pool_address;
        PyInt (Z.land amount_in 0xFFFFFFFFFFFFFFFF);
        PyInt (Z.land min_amount_out 0xFFFFFFFFFFFFFFFF);
        PyInt token_direction ].

(** The arguments of one call of [encode_dex_swap_tx]. *)
Record DomainEvent := {
  ev_nonce : Z;
  ev_pool_address : bytes;
  ev_amount_in : Z;
  ev_min_amount_out : Z;
  ev_token_direction : Z
}.

Definition encode_event (ev : DomainEvent) : result bytes :=
  encode_dex_swap_tx (ev_nonce ev) (ev_pool_address ev) (ev_amount_in ev)
    (ev_min_amount_out ev) (ev_token_direction ev).

(** An independent reader of the fixed layout, written from the layout table
    and not from the encoder: nonce at 0, pool address at 8, amount in at 28,
    minimum amount out at 36, direction at 44, reserved bytes at 45. *)
Record DecodedRecord := {
  dec_nonce : Z;
  dec_pool_address : bytes;
  dec_amount_in : Z;
  dec_min_amount_out : Z;
  dec_token_direction : Z;
  dec_reserved : bytes
}.

Definition layout_decode (b : bytes) : DecodedRecord :=
  {| dec_nonce := le_value (slice 0 8 b);
     dec_pool_address := slice 8 20 b;
     dec_amount_in := le_value (slice 28 8 b);
     dec_min_amount_out := le_value (slice 36 8 b);
     dec_token_direction := le_value (slice 44 1 b);
     dec_reserved := slice 45 3 b |}.

(** ** Pool address constants *)

Definition hex_digit (c : ascii) : option Z :=
  let n := Z.of_nat (nat_of_ascii c) in
  if (48 <=? n) && (n <=? 57) then Some (n - 48)
  else if (65 <=? n) && (n <=? 70) then Some (n - 55)
  else if (97 <=? n) && (n <=? 102) then Some (n - 87)
  else None.

(** [bytes.fromhex] on a string without white space: two hexadecimal digits
    per byte, [ValueError] on any other character or on an odd length. *)
Fixpoint bytes_fromhex (s : string) : result bytes :=
  match s with
  | EmptyString => Ok []
  | String hi (String lo rest) =>
      match hex_digit hi, hex_digit lo with
      | Some h, Some l =>
          rbind (bytes_fromhex rest) (fun r => Ok (byte_of_Z (16 * h + l) :: r))
      | _, _ => Raise ValueError
      end
  | String _ EmptyString => Raise ValueError
  end.

(** [s[:n]] *)
Fixpoint str_take (n : nat) (s : string) : string :=
  match n, s with
  | S k, String c rest => String c (str_take k rest)
  | _, _ => EmptyString
  end.

Fixpoint str_repeat (c : ascii) (n : nat) : string :=
  match n with
  | O => EmptyString
  | S k => String c (str_repeat c k)
  end.

(** [s.ljust(width, fill)] *)
Definition str_ljust (width : nat) (fill : ascii) (s : string) : string :=
  (s ++ str_repeat fill (width - String.length s))%string.

Definition pool_addr_of_hex (h : string) : result bytes :=
  bytes_fromhex (str_ljust 40 "0" (str_take 40 h)).

Definition POOL_ADDR_ETH_USDC_hex : string := "A0b86991c6218b36c1d19D4a2e9Eb0cE3606eB48".
Definition POOL_ADDR_WBTC_ETH_hex : string := "cBCdF9626bC03E24f779434178A73a0B4bad62eD".

Definition POOL_ADDR_ETH_USDC : bytes := Eval vm_compute in
    match pool_addr_of_hex POOL_ADDR_ETH_USDC_hex with Ok b => b | Raise _ => [] end.

Definition POOL_ADDR_WBTC_ETH : bytes := Eval vm_compute in
    match pool_addr_of_hex POOL_ADDR_WBTC_ETH_hex with Ok b => b | Raise _ => [] end.

(** ** Floating point: IEEE 754 binary64, as Python's [float] *)

Module PyFloat.

Definition prec : Z := 53.
Definition emax : Z := 1024.

(** [float(n)] for an integer [n]: the nearest binary64 value. *)
Definition of_int (n : Z) : spec_float := binary_normalize prec emax n 0 false.

(** A decimal literal with digits [digits] and [frac] digits after the point,
    that is [digits / 10^frac], read as the nearest binary64 value: both
    operands of the division are exact and the division rounds once. *)
Definition of_decimal (digits : Z) (frac : nat) : spec_float :=
  SFdiv prec emax (of_int digits) (of_int (10 ^ Z.of_nat frac)).

Definition mul : spec_float -> spec_float -> spec_float := SFmul prec emax.

(** [int(x)]: truncation toward zero. *)
Definition to_int (x : spec_float) : result Z :=
  match x with
  | S754_zero _ => Ok 0
  | S754_finite s m e =>
      let mag :=
        match e with
        | Z0 => Zpos m
        | Zpos p => Zpos m * 2 ^ Zpos p
        | Zneg p => Zpos m / 2 ^ Zpos p
        end in
      Ok (if s then - mag else mag)
  | S754_infinity _ => Raise OverflowError
  | S754_nan => Raise ValueError
  end.

(** [int(n * c)] for an integer [n] and a float [c]. *)
Definition int_of_scaled (n : Z) (c : spec_float) : result Z :=
  to_int (mul (of_int n) c).

End PyFloat.

(** ** The seeded random source *)

(** The [random] module: one hidden generator state, reset by [random.seed]
    and advanced by every draw.  [randbelow n] is the generator's
    [_randbelow(n)], the primitive under [randint] and [choice]. *)
Class RandomSource := {
  rng_state : Type;
  rng_seed : Z -> rng_state;
  randbelow : Z -> rng_state -> Z * rng_state;
  randbelow_range : forall n s, 0 < n -> 0 <= fst (randbelow n s) < n
}.

(** A linear congruential generator, one instance of the interface. *)
Definition lcg_next (s : Z) : Z := (6364136223846793005 * s + 1442695040888963407) mod 2 ^ 64.

#[refine] Instance lcg_source : RandomSource := {|
  rng_state := Z;
  rng_seed := fun seed => Z.abs seed mod 2 ^ 64;
  randbelow := fun n s => ((lcg_next s / 2 ^ 16) mod n, lcg_next s)
|}.
Proof.
  intros n s Hn. cbn. apply Z.mod_pos_bound. exact Hn.
Defined.

Section Generator.

Context {R : RandomSource}.

(** Computations that draw from the random source and may raise. *)
Definition Gen (A : Type) : Type := rng_state -> result A * rng_state.

Definition ret {A} (a : A) : Gen A := fun s => (Ok a, s).

Definition raise {A} (e : exn) : Gen A := fun s => (Raise e, s).

Definition bind {A B} (c : Gen A) (k : A -> Gen B) : Gen B :=
  fun s =>
    match c s with
    | (Ok a, s') => k a s'
    | (Raise e, s') => (Raise e, s')
    end.

Definition lift {A} (r : result A) : Gen A := fun s => (r, s).

Notation "x <- c ;; k" := (bind c (fun x => k))
  (at level 61, c at next level, right associativity).

(** [random.randint(a, b)] is [a + _randbelow(b - a + 1)]. *)
Definition randint (a b : Z) : Gen Z :=
  fun s =>
    let width := b + 1 - a in
    if 0 <? width then
      let (k, s') := randbelow width s in (Ok (a + k), s')
    else (Raise ValueError, s).

(** [random.choice(seq)] is [seq[_randbelow(len(seq))]]. *)
Definition choice {A} (seq : list A) : Gen A :=
  fun s =>
    match seq with
    | [] => (Raise IndexError, s)
    | _ :: _ =>
        let (k, s') := randbelow (Z.of_nat (List.length seq)) s in
        match nth_error seq (Z.to_nat k) with
        | Some x => (Ok x, s')
        | None => (Raise IndexError, s')
        end
    end.

(** ** Packet generation scenarios *)

Definition make_small_swap (nonce : Z) : Gen bytes :=
  amount_in <- randint 1 999999 ;;
  token_direction <- randint 0 1 ;;
  lift (encode_dex_swap_tx nonce POOL_ADDR_ETH_USDC amount_in 1 token_direction).

Definition make_large_swap (nonce : Z) : Gen bytes :=
  amount_in <- randint 10000000 200000000 ;;
  min_out <- lift (PyFloat.int_of_scaled amount_in (PyFloat.of_decimal 90 2)) ;;
  pool_address <- choice [POOL_ADDR_ETH_USDC; POOL_ADDR_WBTC_ETH] ;;
  token_direction <- randint 0 1 ;;
  lift (encode_dex_swap_tx nonce pool_address amount_in min_out token_direction).

Definition make_tight_slippage_swap (nonce : Z) : Gen bytes :=
  amount_in <- randint 5000000 50000000 ;;
  min_out <- lift (PyFloat.int_of_scaled amount_in (PyFloat.of_decimal 999 3)) ;;
  lift (encode_dex_swap_tx nonce POOL_ADDR_ETH_USDC amount_in min_out 0).

(** ** Frame building *)

(** The default addressing of [ethernet_ip_udp_frame]; the two addresses are
    [inet_aton("192.168.69.1")] and [inet_aton("192.168.69.2")]. *)
Definition default_ip_src : bytes := [xc0; xa8; x45; x01].
Definition default_ip_dst : bytes := [xc0; xa8; x45; x02].
Definition default_src_port : Z := 54321.
Definition default_dst_port : Z := 8080.
Definition default_src_mac : bytes := [x00; x11; x22; x33; x44; x55].
Definition default_dst_mac : bytes := [x02; x00; x00; x00; x00; x01].

Definition ethertype_ipv4 : bytes := [x08; x00].

(** [ip_src] and [ip_dst] stand for the four bytes [inet_aton] returns. *)
Definition ethernet_ip_udp_frame_with
  (payload ip_src ip_dst : bytes) (src_port dst_port : Z) (src_mac dst_mac : bytes)
  : Gen bytes :=
  let udp_len := 8 + len payload in
  udp_hdr <- lift (Struct.pack ">HHHH"
                     [PyInt src_port; PyInt dst_port; PyInt udp_len; PyInt 0]) ;;
  let ip_len := 20 + udp_len in
  ident <- randint 1 65535 ;;
  ip_hdr <- lift (Struct.pack ">BBHHHBBH4s4s"
                    [ PyInt 0x45; PyInt 0; PyInt ip_len; PyInt ident; PyInt 0x4000;
                      PyInt 64; PyInt 17; PyInt 0; PyBytes ip_src; PyBytes ip_dst ]) ;;
  ret (dst_mac ++ src_mac ++ ethertype_ipv4 ++ ip_hdr ++ udp_hdr ++ payload).

Definition ethernet_ip_udp_frame (payload : bytes) : Gen bytes :=
  ethernet_ip_udp_frame_with payload default_ip_src default_ip_dst
    default_src_port default_dst_port default_src_mac default_dst_mac.

End Generator.

Notation "x <- c ;; k" := (bind c (fun x => k))
  (at level 61, c at next level, right associativity).

(** ** pcap writing *)

Definition PCAP_GLOBAL_HEADER_packed : result bytes :=
  Struct.pack "<IHHiIII"
    [ PyInt 0xA1B2C3D4; PyInt 2; PyInt 4; PyInt 0; PyInt 0; PyInt 65535; PyInt 1 ].

Definition PCAP_GLOBAL_HEADER : bytes := Eval vm_compute in
    match PCAP_GLOBAL_HEADER_packed with Ok b => b | Raise _ => [] end.

Definition PCAP_RECORD_HEADER_FMT : string := "<IIII".

(** The per-record header of the frame at index [i]. *)
Definition record_header (base_ts_sec i : Z) (frame : bytes) : result bytes :=
  let ts_sec := base_ts_sec + i / 1000 in
  let ts_usec := (i mod 1000) * 1000 in
  let incl_len := len frame in
  let orig_len := incl_len in
  Struct.pack PCAP_RECORD_HEADER_FMT
    [PyInt ts_sec; PyInt ts_usec; PyInt incl_len; PyInt orig_len].

(** The loop of [write_pcap] from index [i] on: the bytes written so far and
    how the loop ended.  A header that cannot be packed ends the loop with
    what was written before it. *)
Fixpoint write_frames (base_ts_sec i : Z) (frames : list bytes) (written : bytes)
  : bytes * result unit :=
  match frames with
  | [] => (written, Ok tt)
  | frame :: rest =>
      match record_header base_ts_sec i frame with
      | Ok hdr => write_frames base_ts_sec (i + 1) rest (written ++ hdr ++ frame)
      | Raise e => (written, Raise e)
      end
  end.

(** Files by name; opening with mode ["wb"] replaces the file.  Opening and
    writing are taken to succeed: failures of the storage are outside the
    model. *)
Definition filesystem := string -> option bytes.

Definition fs_write (fs : filesystem) (name : string) (content : bytes) : filesystem :=
  fun n => if String.eqb n name then Some content else fs n.

Definition write_pcap (filename : string) (frames : list bytes) (base_ts_sec : Z)
  (fs : filesystem) : filesystem * result unit :=
  let (content, r) := write_frames base_ts_sec 0 frames PCAP_GLOBAL_HEADER in
  (fs_write fs filename content, r).

Definition default_base_ts_sec : Z := 1700000000.

(** ** Main *)

Inductive mode := Large | Small | Tight | Mixed.

Section Main.

Context {R : RandomSource}.

(** One iteration of the loop of [main]: the payload of the mode, the size
    assertion (its message shortened), the frame. *)
Definition main_iteration (m : mode) (i : Z) : Gen bytes :=
  payload <-
    match m with
    | Large => make_large_swap i
    | Small => make_small_swap i
    | Tight => make_tight_slippage_swap i
    | Mixed =>
        let r := i mod 4 in
        if r =? 0 then make_small_swap i
        else if r =? 1 then make_tight_slippage_swap i
        else make_large_swap i
    end ;;
  if negb (len payload =? WIRE_SIZE) then raise (AssertionError "payload size")
  else ethernet_ip_udp_frame payload.

(** [for i in range(start, start + n)], appending to [frames]. *)
Fixpoint main_loop (m : mode) (n : nat) (i : Z) (frames : list bytes)
  : Gen (list bytes) :=
  match n with
  | O => ret frames
  | S k =>
      frame <- main_iteration m i ;;
      main_loop m k (i + 1) (frames ++ [frame])
  end.

(** The state [main] runs in: the [random] module's generator and the files.
    The arguments are those [argparse] hands over; the summary printed at the
    end is left out. *)
Record world := { w_rng : rng_state; w_fs : filesystem }.

Definition main (count : Z) (m : mode) (out : string) (seed : Z) (w : world)
  : world * result unit :=
  let s0 := rng_seed seed in
  match main_loop m (Z.to_nat count) 0 [] s0 with
  | (Ok frames, s1) =>
      let (fs', r) := write_pcap out frames default_base_ts_sec (w_fs w) in
      ({| w_rng := s1; w_fs := fs' |}, r)
  | (Raise e, s1) => ({| w_rng := s1; w_fs := w_fs w |}, Raise e)
  end.

End Main.

(** ** Reference definitions for the statements below *)

(** The bytes [encode_dex_swap_tx] returns on a valid call, field by field. *)
Definition wire_bytes (nonce : Z) (pool : bytes) (amount_in min_out dir : Z) : bytes :=
  le_bytes 8 (nonce mod 2 ^ 64) ++ pool ++ le_bytes 8 (amount_in mod 2 ^ 64)
    ++ le_bytes 8 (min_out mod 2 ^ 64) ++ le_bytes 1 dir ++ [x00; x00; x00].

(** The exact floor of the rational product [(num / den) * a]. *)
Definition exact_floor (num : Z) (den : positive) (a : Z) : Z :=
  Qfloor (Qmult (Qmake num den) (inject_Z a)).

(** The integer [m / 2^n] rounded to nearest, ties to even: the mantissa a
    binary64 operation keeps after dropping [n] bits. *)
Definition rne_shift (m : Z) (n : positive) : Z :=
  round_nearest_even (m / 2 ^ Zpos n)
    (loc_of_shr_record
       (Build_shr_record (m / 2 ^ Zpos n) (Z.odd (m / 2 ^ (Zpos n - 1)))
          (negb (m mod 2 ^ (Zpos n - 1) =? 0)))).

(** The three headers of a frame built with the default addressing. *)
Definition ethernet_header : bytes :=
  default_dst_mac ++ default_src_mac ++ ethertype_ipv4.

Definition ipv4_header (total_length ident : Z) : bytes :=
  [x45; x00] ++ be_bytes 2 total_length ++ be_bytes 2 ident ++ be_bytes 2 0x4000
    ++ [x40; x11] ++ be_bytes 2 0 ++ default_ip_src ++ default_ip_dst.

Definition udp_header (udp_length : Z) : bytes :=
  be_bytes 2 default_src_port ++ be_bytes 2 default_dst_port
    ++ be_bytes 2 udp_length ++ be_bytes 2 0.

Definition frame_bytes (ident : Z) (payload : bytes) : bytes :=
  ethernet_header ++ ipv4_header (20 + 8 + len payload) ident
    ++ udp_header (8 + len payload) ++ payload.

(** The synthetic timestamp of the frame at index [i]. *)
Definition ts_sec (base_ts_sec i : Z) : Z := base_ts_sec + i / 1000.
Definition ts_usec (i : Z) : Z := (i mod 1000) * 1000.

(** The little-endian packing of [(ts_sec, ts_usec, incl_len, orig_len)]. *)
Definition record_header_bytes (base_ts_sec i : Z) (frame : bytes) : bytes :=
  le_bytes 4 (ts_sec base_ts_sec i) ++ le_bytes 4 (ts_usec i)
    ++ le_bytes 4 (len frame) ++ le_bytes 4 (len frame).

(** The records of a capture file for the frames at indices [i], [i+1], ... *)
Fixpoint pcap_records (base_ts_sec i : Z) (frames : list bytes) : bytes :=
  match frames with
  | [] => []
  | frame :: rest =>
      record_header_bytes base_ts_sec i frame ++ frame
        ++ pcap_records base_ts_sec (i + 1) rest
  end.

(** Every header field of every frame from index [i] on fits 32 bits. *)
Fixpoint records_fit (base_ts_sec i : Z) (frames : list bytes) : Prop :=
  match frames with
  | [] => True
  | frame :: rest =>
      0 <= ts_sec base_ts_sec i < 2 ^ 32 /\ len frame < 2 ^ 32 /\
      records_fit base_ts_sec (i + 1) rest
  end.

(** Scenario classes. *)
Inductive scenario := ScSmall | ScLarge | ScTight.

Section Scenarios.

Context {R : RandomSource}.

Definition make_scenario (sc : scenario) (nonce : Z) : Gen bytes :=
  match sc with
  | ScSmall => make_small_swap nonce
  | ScLarge => make_large_swap nonce
  | ScTight => make_tight_slippage_swap nonce
  end.

(** One loop iteration that uses the constructor of class [sc]. *)
Definition scenario_iteration (sc : scenario) (i : Z) : Gen bytes :=
  payload <- make_scenario sc i ;;
  if negb (len payload =? WIRE_SIZE) then raise (AssertionError "payload size")
  else ethernet_ip_udp_frame payload.

(** The loop run over a given list of classes, from index [i] on. *)
Fixpoint run_scenarios (scs : list scenario) (i : Z) (frames : list bytes)
  : Gen (list bytes) :=
  match scs with
  | [] => ret frames
  | sc :: rest =>
      frame <- scenario_iteration sc i ;;
      run_scenarios rest (i + 1) (frames ++ [frame])
  end.

End Scenarios.

(** The class whose constructor [main] calls at index [i]. *)
Definition class_of (m : mode) (i : Z) : scenario :=
  match m with
  | Large => ScLarge
  | Small => ScSmall
  | Tight => ScTight
  | Mixed => if i mod 4 =? 0 then ScSmall else if i mod 4 =? 1 then ScTight else ScLarge
  end.

(** The class the specification gives index [i] in mixed mode: small when
    [i mod 4 = 0], tight when [i mod 4 = 1], large when it is 2 or 3. *)
Definition spec_mixed_class (i : Z) : scenario :=
  match i mod 4 with
  | 0 => ScSmall
  | 1 => ScTight
  | _ => ScLarge
  end.

(** The indices [i, i+1, ..., i+n-1]. *)
Fixpoint indices (i : Z) (n : nat) : list Z :=
  match n with
  | O => []
  | S k => i :: indices (i + 1) k
  end.

(** ** Concrete inputs for the instances at the end *)

Definition out_a : string := "a.pcap".
Definition out_b : string := "b.pcap".

Definition w_empty : world (R := lcg_source) :=
  {| w_rng := 0; w_fs := fun _ => None |}.

Definition w_used : world (R := lcg_source) :=
  {| w_rng := 987654321;
     w_fs := fun n => if String.eqb n out_b then Some [x01; x02] else None |}.

(** ** Reading a capture back, and what a generated file holds *)

(** One packet of a capture file: the four header fields and the data. *)
Record pcap_packet := {
  pkt_ts_sec : Z;
  pkt_ts_usec : Z;
  pkt_incl_len : Z;
  pkt_orig_len : Z;
  pkt_data : bytes
}.

(** A reader of the record stream, written from the format: a 16-byte
    little-endian header, then [incl_len] bytes of data.  A truncated header
    or a truncated packet gives [None]. *)
Fixpoint read_records (fuel : nat) (b : bytes) : option (list pcap_packet) :=
  match b with
  | [] => Some []
  | _ :: _ =>
      match fuel with
      | O => None
      | S k =>
          if (List.length b <? 16)%nat then None
          else
            let incl := Z.to_nat (le_value (slice 8 4 b)) in
            let body := skipn 16 b in
            if (List.length body <? incl)%nat then None
            else
              option_map
                (cons {| pkt_ts_sec := le_value (slice 0 4 b);
                         pkt_ts_usec := le_value (slice 4 4 b);
                         pkt_incl_len := le_value (slice 8 4 b);
                         pkt_orig_len := le_value (slice 12 4 b);
                         pkt_data := firstn incl body |})
                (read_records k (skipn incl body))
      end
  end.

(** A reader of a whole file: a little-endian microsecond capture of version
    2.4 on Ethernet, then the records. *)
Definition read_pcap (file : bytes) : option (list pcap_packet) :=
  if (24 <=? len file)
     && (le_value (slice 0 4 file) =? 0xA1B2C3D4)
     && (le_value (slice 4 2 file) =? 2)
     && (le_value (slice 6 2 file) =? 4)
     && (le_value (slice 20 4 file) =? 1)
  then read_records (List.length file) (skipn 24 file)
  else None.

(** The packets a reader is to find for the frames at indices [i], [i+1], ... *)
Fixpoint packets_of (base_ts_sec i : Z) (frames : list bytes) : list pcap_packet :=
  match frames with
  | [] => []
  | frame :: rest =>
      {| pkt_ts_sec := ts_sec base_ts_sec i;
         pkt_ts_usec := ts_usec i;
         pkt_incl_len := len frame;
         pkt_orig_len := len frame;
         pkt_data := frame |} :: packets_of base_ts_sec (i + 1) rest
  end.

Definition total_len (frames : list bytes) : Z :=
  fold_right (fun f acc => len f + acc) 0 frames.

(** The fields of a record of class [sc], as the constructors set them. *)
Definition event_in_class (sc : scenario) (d : DecodedRecord) : Prop :=
  match sc with
  | ScSmall =>
      dec_pool_address d = POOL_ADDR_ETH_USDC /\
      1 <= dec_amount_in d <= 999999 /\
      dec_min_amount_out d = 1 /\
      (dec_token_direction d = 0 \/ dec_token_direction d = 1)
  | ScLarge =>
      (dec_pool_address d = POOL_ADDR_ETH_USDC \/
       dec_pool_address d = POOL_ADDR_WBTC_ETH) /\
      10000000 <= dec_amount_in d <= 200000000 /\
      dec_min_amount_out d = 9 * dec_amount_in d / 10 /\
      (dec_token_direction d = 0 \/ dec_token_direction d = 1)
  | ScTight =>
      dec_pool_address d = POOL_ADDR_ETH_USDC /\
      5000000 <= dec_amount_in d <= 50000000 /\
      dec_min_amount_out d = 999 * dec_amount_in d / 1000 /\
      dec_token_direction d = 0
  end.

(** The record a consumer extracts from a frame: 48 bytes at offset 42. *)
Definition frame_record (frame : bytes) : DecodedRecord :=
  layout_decode (slice 42 48 frame).

(** The frames of a run in mode [m], from index [i] on: 90 bytes each, an
    IPv4 total length of 76 and a UDP length of 56, the record's nonce is the
    index, its fields are those of the index's class. *)
Fixpoint frames_generated (m : mode) (i : Z) (frames : list bytes) : Prop :=
  match frames with
  | [] => True
  | frame :: rest =>
      len frame = 90 /\
      be_value (slice 16 2 frame) = 76 /\
      be_value (slice 38 2 frame) = 56 /\
      dec_nonce (frame_record frame) = i mod 2 ^ 64 /\
      dec_reserved (frame_record frame) = [x00; x00; x00] /\
      event_in_class (class_of m i) (frame_record frame) /\
      frames_generated m (i + 1) rest
  end.

Definition scenario_eq_dec (a b : scenario) : {a = b} + {a <> b}.
Proof. decide equality. Defined.

(** Strings of hexadecimal digits. *)
Definition is_hex (c : ascii) : bool :=
  match hex_digit c with
  | Some _ => true
  | None => false
  end.

Fixpoint str_forall (p : ascii -> bool) (s : string) : bool :=
  match s with
  | EmptyString => true
  | String c rest => p c && str_forall p rest
  end.

(** * Proofs *)

(** * Byte strings *)

Lemma Z_of_byte_range (b : byte) : 0 <= Z_of_byte b < 256.
Proof.
  unfold Z_of_byte. pose proof (Byte.to_N_bounded b). lia.
Qed.

Lemma Z_of_byte_of_Z (z : Z) : Z_of_byte (byte_of_Z z) = z mod 256.
Proof.
  unfold Z_of_byte, byte_of_Z.
  assert (Hr : 0 <= z mod 256 < 256) by (apply Z.mod_pos_bound; lia).
  destruct (Byte.of_N (Z.to_N (z mod 256))) as [b|] eqn:E.
  - apply Byte.to_of_N in E. rewrite E. lia.
  - apply Byte.of_N_None_iff in E. lia.
Qed.

Lemma byte_of_Z_of_byte (b : byte) : byte_of_Z (Z_of_byte b) = b.
Proof.
  unfold byte_of_Z. rewrite Z.mod_small by apply Z_of_byte_range.
  unfold Z_of_byte. rewrite N2Z.id, Byte.of_to_N. reflexivity.
Qed.

Lemma length_le_bytes (n : nat) (v : Z) : List.length (le_bytes n v) = n.
Proof.
  revert v. induction n as [|n IH]; intros v; cbn [le_bytes List.length]; [|rewrite IH]; reflexivity.
Qed.

Lemma length_be_bytes (n : nat) (v : Z) : List.length (be_bytes n v) = n.
Proof.
  unfold be_bytes. rewrite length_rev. apply length_le_bytes.
Qed.

Lemma le_value_le_bytes (n : nat) (v : Z) :
  le_value (le_bytes n v) = v mod 2 ^ (8 * Z.of_nat n).
Proof.
  revert v. induction n as [|n IH]; intros v.
  - cbn. rewrite Z.mod_1_r. reflexivity.
  - cbn [le_bytes le_value]. rewrite IH, Z_of_byte_of_Z.
    replace (8 * Z.of_nat (S n)) with (8 + 8 * Z.of_nat n) by lia.
    rewrite Z.pow_add_r by lia. change (2 ^ 8) with 256.
    rewrite Z.rem_mul_r by (try apply Z.pow_pos_nonneg; lia). reflexivity.
Qed.

Lemma be_value_be_bytes (n : nat) (v : Z) :
  be_value (be_bytes n v) = v mod 2 ^ (8 * Z.of_nat n).
Proof.
  unfold be_value, be_bytes. rewrite rev_involutive. apply le_value_le_bytes.
Qed.

Lemma length_int_bytes (o : byte_order) (n : nat) (v : Z) :
  List.length (int_bytes o n v) = n.
Proof.
  destruct o; [apply length_le_bytes | apply length_be_bytes].
Qed.

Lemma slice_here (n : nat) (a r : bytes) :
  List.length a = n -> slice 0 n (a ++ r) = a.
Proof.
  intros <-. unfold slice. cbn [skipn].
  rewrite firstn_app, Nat.sub_diag, firstn_all. cbn [firstn]. apply app_nil_r.
Qed.

Lemma slice_skip (k off n : nat) (a r : bytes) :
  List.length a = k -> slice (k + off) n (a ++ r) = slice off n r.
Proof.
  intros <-. unfold slice. rewrite skipn_app.
  rewrite (skipn_all2 a) by lia. cbn [app]. f_equal. f_equal. lia.
Qed.

Lemma slice_all (n : nat) (a : bytes) :
  List.length a = n -> slice 0 n a = a.
Proof.
  intros <-. unfold slice. cbn [skipn]. apply firstn_all.
Qed.

Lemma pack_chars_exact (n : nat) (b : bytes) :
  List.length b = n -> pack_chars n b = b.
Proof.
  intros <-. unfold pack_chars.
  rewrite firstn_app, Nat.sub_diag, firstn_all. cbn [firstn]. apply app_nil_r.
Qed.

Lemma length_pack_chars (n : nat) (b : bytes) : List.length (pack_chars n b) = n.
Proof.
  unfold pack_chars, zeros. rewrite length_firstn, length_app, repeat_length. lia.
Qed.

Lemma pack_unsigned_ok (o : byte_order) (n : nat) (v : Z) :
  0 <= v < 2 ^ (8 * Z.of_nat n) -> pack_unsigned o n v = Ok (int_bytes o n v).
Proof.
  intros [H0 H1]. unfold pack_unsigned.
  apply Z.leb_le in H0. apply Z.ltb_lt in H1. rewrite H0, H1. reflexivity.
Qed.

Lemma pack_unsigned_raise (o : byte_order) (n : nat) (v : Z) :
  v < 0 \/ 2 ^ (8 * Z.of_nat n) <= v -> pack_unsigned o n v = Raise StructError.
Proof.
  intros H. unfold pack_unsigned.
  destruct (Z.leb_spec 0 v), (Z.ltb_spec v (2 ^ (8 * Z.of_nat n))); try reflexivity; lia.
Qed.

Lemma land_mask64 (v : Z) : Z.land v 0xFFFFFFFFFFFFFFFF = v mod 2 ^ 64.
Proof.
  change 0xFFFFFFFFFFFFFFFF with (Z.ones 64). apply Z.land_ones. lia.
Qed.

Lemma mask64_range (v : Z) : 0 <= Z.land v 0xFFFFFFFFFFFFFFFF < 2 ^ (8 * Z.of_nat 8).
Proof.
  rewrite land_mask64. change (2 ^ (8 * Z.of_nat 8)) with (2 ^ 64).
  apply Z.mod_pos_bound. reflexivity.
Qed.

(** * The encoder *)

Lemma fmt_dex_swap_tx :
  parse_format "<Q20sQQBxxx" =
  Some (LittleEndian, [fmt_Q; fmt_s 20; fmt_Q; fmt_Q; fmt_B; fmt_x; fmt_x; fmt_x]).
Proof. reflexivity. Qed.

Lemma encode_valid (nonce : Z) (pool : bytes) (amount_in min_out dir : Z) :
  List.length pool = 20%nat -> dir = 0 \/ dir = 1 ->
  encode_dex_swap_tx nonce pool amount_in min_out dir =
  Ok (wire_bytes nonce pool amount_in min_out dir).
Proof.
  intros Hlen Hdir. unfold encode_dex_swap_tx, len.
  rewrite Hlen. cbn [Z.of_nat Pos.of_succ_nat Pos.succ Z.eqb Pos.eqb negb].
  assert (Hd : (dir =? 0) || (dir =? 1) = true) by (destruct Hdir; subst; reflexivity).
  rewrite Hd. cbn [negb].
  unfold Struct.pack. rewrite fmt_dex_swap_tx.
  cbn [pack_items pack_int].
  rewrite !(pack_unsigned_ok _ 8) by apply mask64_range.
  rewrite (pack_unsigned_ok _ 1) by (destruct Hdir; subst; cbn; lia).
  cbn [rbind int_bytes]. rewrite pack_chars_exact by assumption.
  rewrite !land_mask64. unfold wire_bytes.
  reflexivity.
Qed.

Lemma encode_bad_pool (nonce : Z) (pool : bytes) (amount_in min_out dir : Z) :
  List.length pool <> 20%nat ->
  encode_dex_swap_tx nonce pool amount_in min_out dir =
  Raise (AssertionError "pool_address must be 20 bytes").
Proof.
  intros Hlen. unfold encode_dex_swap_tx, len.
  destruct (Z.eqb_spec (Z.of_nat (List.length pool)) 20); [lia | reflexivity].
Qed.

Lemma encode_bad_direction (nonce : Z) (pool : bytes) (amount_in min_out dir : Z) :
  List.length pool = 20%nat -> dir <> 0 -> dir <> 1 ->
  encode_dex_swap_tx nonce pool amount_in min_out dir =
  Raise (AssertionError "token_direction must be 0 or 1").
Proof.
  intros Hlen H0 H1. unfold encode_dex_swap_tx, len. rewrite Hlen.
  cbn [Z.of_nat Pos.of_succ_nat Pos.succ Z.eqb Pos.eqb negb].
  destruct (Z.eqb_spec dir 0), (Z.eqb_spec dir 1); try lia. reflexivity.
Qed.

Lemma length_wire_bytes (nonce : Z) (pool : bytes) (amount_in min_out dir : Z) :
  List.length pool = 20%nat ->
  List.length (wire_bytes nonce pool amount_in min_out dir) = 48%nat.
Proof.
  intros Hlen. unfold wire_bytes.
  rewrite !length_app, !length_le_bytes, Hlen. reflexivity.
Qed.

Lemma layout_decode_wire_bytes (nonce : Z) (pool : bytes) (amount_in min_out dir : Z) :
  List.length pool = 20%nat -> dir = 0 \/ dir = 1 ->
  layout_decode (wire_bytes nonce pool amount_in min_out dir) =
  {| dec_nonce := nonce mod 2 ^ 64;
     dec_pool_address := pool;
     dec_amount_in := amount_in mod 2 ^ 64;
     dec_min_amount_out := min_out mod 2 ^ 64;
     dec_token_direction := dir;
     dec_reserved := [x00; x00; x00] |}.
Proof.
  intros Hlen Hdir. unfold layout_decode, wire_bytes.
  set (n8 := le_bytes 8 (nonce mod 2 ^ 64)).
  set (a8 := le_bytes 8 (amount_in mod 2 ^ 64)).
  set (m8 := le_bytes 8 (min_out mod 2 ^ 64)).
  set (d1 := le_bytes 1 dir).
  assert (Hn : List.length n8 = 8%nat) by apply length_le_bytes.
  assert (Ha : List.length a8 = 8%nat) by apply length_le_bytes.
  assert (Hm : List.length m8 = 8%nat) by apply length_le_bytes.
  assert (Hd : List.length d1 = 1%nat) by apply length_le_bytes.
  f_equal.
  - rewrite slice_here by assumption. unfold n8.
    rewrite le_value_le_bytes. change (2 ^ (8 * Z.of_nat 8)) with (2 ^ 64).
    apply Z.mod_mod. lia.
  - change 8%nat with (8 + 0)%nat at 1. rewrite (slice_skip 8) by assumption.
    apply slice_here. assumption.
  - change 28%nat with (8 + (20 + 0))%nat.
    rewrite (slice_skip 8), (slice_skip 20), slice_here by assumption.
    unfold a8. rewrite le_value_le_bytes. change (2 ^ (8 * Z.of_nat 8)) with (2 ^ 64).
    apply Z.mod_mod. lia.
  - change 36%nat with (8 + (20 + (8 + 0)))%nat.
    rewrite (slice_skip 8), (slice_skip 20), (slice_skip 8), slice_here by assumption.
    unfold m8. rewrite le_value_le_bytes. change (2 ^ (8 * Z.of_nat 8)) with (2 ^ 64).
    apply Z.mod_mod. lia.
  - change 44%nat with (8 + (20 + (8 + (8 + 0))))%nat.
    rewrite (slice_skip 8), (slice_skip 20), !(slice_skip 8), slice_here by assumption.
    unfold d1. rewrite le_value_le_bytes. change (2 ^ (8 * Z.of_nat 1)) with 256.
    destruct Hdir; subst; reflexivity.
  - change 45%nat with (8 + (20 + (8 + (8 + (1 + 0)))))%nat.
    rewrite (slice_skip 8), (slice_skip 20), !(slice_skip 8), (slice_skip 1) by assumption.
    reflexivity.
Qed.

Lemma encode_cases (nonce : Z) (pool : bytes) (amount_in min_out dir : Z) :
  (List.length pool = 20%nat /\ (dir = 0 \/ dir = 1) /\
   encode_dex_swap_tx nonce pool amount_in min_out dir =
   Ok (wire_bytes nonce pool amount_in min_out dir)) \/
  (List.length pool <> 20%nat /\
   encode_dex_swap_tx nonce pool amount_in min_out dir =
   Raise (AssertionError "pool_address must be 20 bytes")) \/
  (List.length pool = 20%nat /\ dir <> 0 /\ dir <> 1 /\
   encode_dex_swap_tx nonce pool amount_in min_out dir =
   Raise (AssertionError "token_direction must be 0 or 1")).
Proof.
  destruct (Nat.eq_dec (List.length pool) 20) as [Hlen | Hlen].
  - destruct (Z.eq_dec dir 0) as [H0 | H0]; [|destruct (Z.eq_dec dir 1) as [H1 | H1]].
    + left. auto using encode_valid.
    + left. auto using encode_valid.
    + right; right. auto using encode_bad_direction.
  - right; left. auto using encode_bad_pool.
Qed.

(** * Binary64 multiplication by a constant *)

Lemma digits2_pos_bounds (p : positive) :
  2 ^ (Zpos (digits2_pos p) - 1) <= Zpos p < 2 ^ Zpos (digits2_pos p).
Proof.
  induction p as [p IH | p IH |]; cbn [digits2_pos].
  - rewrite Pos2Z.inj_succ.
    replace (Z.succ (Zpos (digits2_pos p)) - 1) with (Z.succ (Zpos (digits2_pos p) - 1)) by lia.
    rewrite !Z.pow_succ_r by lia. lia.
  - rewrite Pos2Z.inj_succ.
    replace (Z.succ (Zpos (digits2_pos p)) - 1) with (Z.succ (Zpos (digits2_pos p) - 1)) by lia.
    rewrite !Z.pow_succ_r by lia. lia.
  - cbn. lia.
Qed.

Lemma digits2_pos_unique (p : positive) (d : Z) :
  2 ^ (d - 1) <= Zpos p < 2 ^ d -> Zpos (digits2_pos p) = d.
Proof.
  intros [Hlo Hhi].
  pose proof (digits2_pos_bounds p) as [Blo Bhi].
  assert (0 < d).
  { destruct (Z_lt_le_dec 0 d) as [|Hd]; [assumption|].
    assert (2 ^ d <= 2 ^ 0) by (apply Z.pow_le_mono_r; lia).
    change (2 ^ 0) with 1 in *. lia. }
  destruct (Z.lt_trichotomy (Zpos (digits2_pos p)) d) as [Hlt | [Heq | Hgt]]; [|exact Heq|].
  - assert (2 ^ Zpos (digits2_pos p) <= 2 ^ (d - 1)) by (apply Z.pow_le_mono_r; lia). lia.
  - assert (2 ^ d <= 2 ^ (Zpos (digits2_pos p) - 1)) by (apply Z.pow_le_mono_r; lia). lia.
Qed.

Lemma iter_pos_nat {A} (f : A -> A) (n : positive) (x : A) :
  iter_pos f n x = Nat.iter (Pos.to_nat n) f x.
Proof.
  revert x. induction n as [n IH | n IH |]; intros x; cbn [iter_pos].
  - rewrite !IH, Pos2Nat.inj_xI. 
    replace (S (2 * Pos.to_nat n))%nat with (Pos.to_nat n + (Pos.to_nat n + 1))%nat by lia.
    rewrite !Nat.iter_add. reflexivity.
  - rewrite !IH, Pos2Nat.inj_xO.
    replace (2 * Pos.to_nat n)%nat with (Pos.to_nat n + Pos.to_nat n)%nat by lia.
    rewrite Nat.iter_add. reflexivity.
  - reflexivity.
Qed.

Lemma shr_1_nonneg (m : Z) (r s : bool) :
  0 <= m ->
  shr_1 (Build_shr_record m r s) = Build_shr_record (Z.div2 m) (Z.odd m) (r || s).
Proof.
  intros Hm. destruct m as [|[p|p|]|p]; try reflexivity. lia.
Qed.

(** The sticky bit after [k] shifts: a dropped bit below the round bit is set. *)
Lemma iter_shr_1 (k : nat) (m : Z) :
  0 <= m ->
  Nat.iter (S k) shr_1 (Build_shr_record m false false) =
  Build_shr_record (m / 2 ^ Z.of_nat (S k)) (Z.odd (m / 2 ^ Z.of_nat k))
    (negb (m mod 2 ^ Z.of_nat k =? 0)).
Proof.
  intros Hm. induction k as [|k IH].
  - cbn [Nat.iter]. rewrite shr_1_nonneg by assumption.
    change (2 ^ Z.of_nat 0) with 1. change (2 ^ Z.of_nat 1) with 2.
    rewrite Z.div_1_r, Z.mod_1_r, Z.div2_div. reflexivity.
  - change (Nat.iter (S (S k)) shr_1 ?x) with (shr_1 (Nat.iter (S k) shr_1 x)).
    rewrite IH, shr_1_nonneg by (apply Z.div_pos; lia).
    rewrite Z.div2_div, Z.div_div by lia.
    f_equal.
    + f_equal. rewrite (Nat2Z.inj_succ (S k)), Z.pow_succ_r by lia. lia.
    + rewrite (Nat2Z.inj_succ k), (Z.pow_succ_r 2 (Z.of_nat k)) by lia.
      rewrite (Z.mul_comm 2), Z.rem_mul_r by lia.
      set (q := m / 2 ^ Z.of_nat k). set (t := m mod 2 ^ Z.of_nat k).
      assert (0 <= t < 2 ^ Z.of_nat k) by (apply Z.mod_pos_bound; lia).
      rewrite (Zodd_mod q).
      assert (0 <= q mod 2 < 2) by (apply Z.mod_pos_bound; lia).
      destruct (Z.eqb_spec (q mod 2) 1), (Z.eqb_spec t 0), (Z.eqb_spec (t + 2 ^ Z.of_nat k * (q mod 2)) 0); cbn; try reflexivity; nia.
Qed.

Lemma Zdigits2_unique (m d : Z) :
  0 < m -> 2 ^ (d - 1) <= m < 2 ^ d -> Zdigits2 m = d.
Proof.
  intros Hm Hb. destruct m as [|p|p]; try lia.
  cbn [Zdigits2]. apply digits2_pos_unique. exact Hb.
Qed.

Lemma shr_fexp_mantissa (m e : Z) :
  2 ^ 52 <= m < 2 ^ 53 -> -1074 <= e ->
  shr_fexp 53 1024 m e loc_Exact = (Build_shr_record m false false, e).
Proof.
  intros Hm He. unfold shr_fexp.
  rewrite (Zdigits2_unique m 53) by (cbn; lia).
  unfold fexp, emin. cbn [shr_record_of_loc].
  replace (Z.max (53 + e - 53) (3 - 1024 - 53) - e) with 0 by lia.
  reflexivity.
Qed.

Lemma shr_fexp_shift (m e : Z) (n : positive) :
  2 ^ (52 + Zpos n) <= m < 2 ^ (53 + Zpos n) -> -1074 <= e + Zpos n ->
  shr_fexp 53 1024 m e loc_Exact =
  (Build_shr_record (m / 2 ^ Zpos n) (Z.odd (m / 2 ^ (Zpos n - 1)))
     (negb (m mod 2 ^ (Zpos n - 1) =? 0)), e + Zpos n).
Proof.
  intros Hm He. unfold shr_fexp.
  assert (0 < m).
  { assert (0 < 2 ^ (52 + Zpos n)) by (apply Z.pow_pos_nonneg; lia). lia. }
  rewrite (Zdigits2_unique m (53 + Zpos n)).
  2: lia.
  2: { replace (53 + Zpos n - 1) with (52 + Zpos n) by lia. exact Hm. }
  unfold fexp, emin. cbn [shr_record_of_loc].
  replace (Z.max (53 + Zpos n + e - 53) (3 - 1024 - 53) - e) with (Zpos n) by lia.
  cbn [shr]. rewrite iter_pos_nat.
  destruct (Pos.to_nat n) as [|k] eqn:Hk; [lia|].
  rewrite iter_shr_1 by lia.
  rewrite <- Hk, positive_nat_Z.
  replace (Z.of_nat k) with (Zpos n - 1) by lia.
  reflexivity.
Qed.

Lemma binary_round_aux_shift (m e : Z) (n : positive) :
  2 ^ (52 + Zpos n) <= m < 2 ^ (53 + Zpos n) ->
  -1074 <= e + Zpos n <= 971 ->
  rne_shift m n < 2 ^ 53 ->
  binary_round_aux 53 1024 false m e loc_Exact =
  S754_finite false (Z.to_pos (rne_shift m n)) (e + Zpos n).
Proof.
  intros Hm He Hr. unfold binary_round_aux.
  rewrite (shr_fexp_shift m e n) by lia.
  cbn [shr_m]. fold (rne_shift m n).
  assert (2 ^ 52 <= rne_shift m n).
  { unfold rne_shift.
    assert (2 ^ 52 <= m / 2 ^ Zpos n).
    { apply Z.div_le_lower_bound; [apply Z.pow_pos_nonneg; lia|].
      rewrite <- Z.pow_add_r by lia. rewrite Z.add_comm. lia. }
    unfold round_nearest_even, loc_of_shr_record.
    destruct (Z.odd _), (negb _); try destruct (Z.even _); lia. }
  rewrite shr_fexp_mantissa by lia.
  cbn [shr_m].
  destruct (rne_shift m n) as [|q|q] eqn:Hq; try lia.
  destruct (Z.leb_spec (e + Zpos n) (1024 - 53)); [reflexivity | lia].
Qed.

Lemma pos_iter_xO (p k : positive) :
  Zpos (Pos.iter xO p k) = Zpos p * 2 ^ Zpos k.
Proof.
  induction k as [|k IH] using Pos.peano_ind.
  - cbn [Pos.iter]. lia.
  - rewrite Pos.iter_succ, Pos2Z.inj_xO, IH, Pos2Z.inj_succ, Z.pow_succ_r by lia. lia.
Qed.

Lemma of_int_small (a d : Z) :
  0 < d < 53 -> 2 ^ (d - 1) <= a < 2 ^ d ->
  PyFloat.of_int a = S754_finite false (Z.to_pos (a * 2 ^ (53 - d))) (d - 53).
Proof.
  intros Hd Ha.
  assert (0 < 2 ^ (d - 1)) by (apply Z.pow_pos_nonneg; lia).
  destruct a as [|p|p]; try lia.
  unfold PyFloat.of_int, binary_normalize, binary_round, PyFloat.prec, PyFloat.emax.
  rewrite (digits2_pos_unique p d Ha).
  assert (Hf : fexp 53 1024 (d + 0) = d - 53) by (unfold fexp, emin; lia).
  rewrite Hf. unfold shl_align.
  replace (d - 53 - 0) with (d - 53) by lia.
  destruct (d - 53) as [|q|q] eqn:Hq; try lia.
  assert (Hm : Zpos (Pos.iter xO p q) = Zpos p * 2 ^ (53 - d)).
  { rewrite pos_iter_xO. f_equal. f_equal. lia. }
  assert (2 ^ 52 <= Zpos p * 2 ^ (53 - d) < 2 ^ 53).
  { assert (E52 : 2 ^ 52 = 2 ^ (d - 1) * 2 ^ (53 - d))
      by (rewrite <- Z.pow_add_r by lia; f_equal; lia).
    assert (E53 : 2 ^ 53 = 2 ^ d * 2 ^ (53 - d))
      by (rewrite <- Z.pow_add_r by lia; f_equal; lia).
    assert (0 < 2 ^ (53 - d)) by (apply Z.pow_pos_nonneg; lia).
    rewrite E52, E53. split.
    - apply Z.mul_le_mono_nonneg_r; lia.
    - apply Z.mul_lt_mono_pos_r; lia. }
  unfold binary_round_aux.
  rewrite shr_fexp_mantissa by lia.
  cbn [shr_m round_nearest_even loc_of_shr_record].
  rewrite shr_fexp_mantissa by lia.
  cbn [shr_m]. rewrite <- Hm. cbn [Z.to_pos].
  destruct (Z.leb_spec (Zneg q) (1024 - 53)); [reflexivity | lia].
Qed.

Lemma rne_shift_cases (m : Z) (n : positive) :
  (rne_shift m n = m / 2 ^ Zpos n /\ (m / 2 ^ (Zpos n - 1)) mod 2 = 0) \/
  (rne_shift m n = m / 2 ^ Zpos n /\ (m / 2 ^ (Zpos n - 1)) mod 2 = 1 /\
     m mod 2 ^ (Zpos n - 1) = 0 /\ (m / 2 ^ Zpos n) mod 2 = 0) \/
  (rne_shift m n = m / 2 ^ Zpos n + 1 /\ (m / 2 ^ (Zpos n - 1)) mod 2 = 1).
Proof.
  unfold rne_shift, round_nearest_even, loc_of_shr_record.
  rewrite Zodd_mod, Zeven_mod.
  assert (0 <= (m / 2 ^ (Zpos n - 1)) mod 2 < 2) by (apply Z.mod_pos_bound; lia).
  destruct (Z.eqb_spec ((m / 2 ^ (Zpos n - 1)) mod 2) 1) as [E|E].
  - destruct (Z.eqb_spec (m mod 2 ^ (Zpos n - 1)) 0) as [E1|E1]; cbn [negb].
    + destruct (Z.eqb_spec ((m / 2 ^ Zpos n) mod 2) 0) as [E2|E2].
      * right; left. repeat split; assumption.
      * right; right. split; [reflexivity | assumption].
    + right; right. split; [reflexivity | assumption].
  - left. destruct (negb _); (split; [reflexivity | lia]).
Qed.

Lemma int_of_scaled_shift (a d M : Z) (n : positive) :
  0 < d < 53 -> 2 ^ (d - 1) <= a < 2 ^ d ->
  0 < M ->
  2 ^ (52 + Zpos n) <= a * 2 ^ (53 - d) * M < 2 ^ (53 + Zpos n) ->
  rne_shift (a * 2 ^ (53 - d) * M) n < 2 ^ 53 ->
  d + Zpos n < 106 ->
  PyFloat.int_of_scaled a (S754_finite false (Z.to_pos M) (-53)) =
  Ok (rne_shift (a * 2 ^ (53 - d) * M) n / 2 ^ (106 - d - Zpos n)).
Proof.
  intros Hd Ha HM HP Hr Hn.
  unfold PyFloat.int_of_scaled. rewrite (of_int_small a d Hd Ha).
  unfold PyFloat.mul, SFmul. cbn [xorb].
  assert (0 < 2 ^ (d - 1)) by (apply Z.pow_pos_nonneg; lia).
  assert (0 < 2 ^ (53 - d)) by (apply Z.pow_pos_nonneg; lia).
  assert (Hprod : Zpos (Z.to_pos (a * 2 ^ (53 - d)) * Z.to_pos M) = a * 2 ^ (53 - d) * M).
  { rewrite Pos2Z.inj_mul, !Z2Pos.id; nia. }
  rewrite Hprod.
  rewrite (binary_round_aux_shift _ _ n) by (unfold PyFloat.prec, PyFloat.emax; lia).
  unfold PyFloat.to_int.
  destruct (d - 53 + -53 + Zpos n) as [|q|q] eqn:Hq; try lia.
  assert (0 < rne_shift (a * 2 ^ (53 - d) * M) n).
  { destruct (rne_shift_cases (a * 2 ^ (53 - d) * M) n) as [[E _] | [[E _] | [E _]]]; rewrite E;
      assert (0 < a * 2 ^ (53 - d) * M / 2 ^ Zpos n); try lia;
      apply Z.div_str_pos; split; try (apply Z.pow_pos_nonneg; lia);
      assert (2 ^ Zpos n <= 2 ^ (52 + Zpos n)) by (apply Z.pow_le_mono_r; lia); lia. }
  rewrite Z2Pos.id by assumption.
  do 3 f_equal. lia.
Qed.

Ltac pow_consts :=
  repeat match goal with
    | |- context [2 ^ ?k] => let v := eval vm_compute in (2 ^ k) in change (2 ^ k) with v
    | H : context [2 ^ ?k] |- _ => let v := eval vm_compute in (2 ^ k) in change (2 ^ k) with v in H
    end.

Ltac div_lia := Z.to_euclidean_division_equations; lia.

Ltac scaled_cases M n Hcases :=
  match goal with
  | |- context [rne_shift ?P n] =>
      destruct (rne_shift_cases P n) as [[E Hr] | [(E & Hr & Hs & He) | [E Hr]]];
      rewrite E; clear E
  | _ => idtac
  end;
  repeat (destruct Hcases as [Hcases | Hcases]); subst;
  cbn [Z.sub Z.add Z.opp Z.pos_sub Pos.pred_double Pos.succ Pos.add Pos.sub] in *;
  pow_consts; div_lia.

Lemma scaled_090 (a : Z) :
  10000000 <= a <= 200000000 ->
  PyFloat.int_of_scaled a (PyFloat.of_decimal 90 2) = Ok (9 * a / 10).
Proof.
  intros Ha.
  change (PyFloat.of_decimal 90 2) with (S754_finite false (Z.to_pos 8106479329266893) (-53)).
  assert (Hd : exists d, (d = 24 \/ d = 25 \/ d = 26 \/ d = 27 \/ d = 28) /\ 2 ^ (d - 1) <= a < 2 ^ d).
  { destruct (Z_lt_le_dec a (2 ^ 24)); [exists 24; cbn; lia|].
    destruct (Z_lt_le_dec a (2 ^ 25)); [exists 25; cbn; lia|].
    destruct (Z_lt_le_dec a (2 ^ 26)); [exists 26; cbn; lia|].
    destruct (Z_lt_le_dec a (2 ^ 27)); [exists 27; cbn; lia|].
    exists 28; cbn; lia. }
  destruct Hd as (d & Hcases & Hb).
  destruct (Z_lt_le_dec (a * 2 ^ (53 - d) * 8106479329266893) (2 ^ 105)) as [Hlt | Hge].
  - rewrite (int_of_scaled_shift a d 8106479329266893 52); try lia.
    + f_equal. scaled_cases 8106479329266893 52%positive Hcases.
    + scaled_cases 8106479329266893 52%positive Hcases.
    + scaled_cases 8106479329266893 52%positive Hcases.
  - rewrite (int_of_scaled_shift a d 8106479329266893 53); try lia.
    + f_equal. scaled_cases 8106479329266893 53%positive Hcases.
    + scaled_cases 8106479329266893 53%positive Hcases.
    + scaled_cases 8106479329266893 53%positive Hcases.
Qed.

Lemma scaled_0999 (a : Z) :
  5000000 <= a <= 50000000 ->
  PyFloat.int_of_scaled a (PyFloat.of_decimal 999 3) = Ok (999 * a / 1000).
Proof.
  intros Ha.
  change (PyFloat.of_decimal 999 3) with (S754_finite false (Z.to_pos 8998192055486251) (-53)).
  assert (Hd : exists d, (d = 23 \/ d = 24 \/ d = 25 \/ d = 26) /\ 2 ^ (d - 1) <= a < 2 ^ d).
  { destruct (Z_lt_le_dec a (2 ^ 23)); [exists 23; cbn; lia|].
    destruct (Z_lt_le_dec a (2 ^ 24)); [exists 24; cbn; lia|].
    destruct (Z_lt_le_dec a (2 ^ 25)); [exists 25; cbn; lia|].
    exists 26; cbn; lia. }
  destruct Hd as (d & Hcases & Hb).
  destruct (Z_lt_le_dec (a * 2 ^ (53 - d) * 8998192055486251) (2 ^ 105)) as [Hlt | Hge].
  - rewrite (int_of_scaled_shift a d 8998192055486251 52); try lia.
    + f_equal. scaled_cases 8998192055486251 52%positive Hcases.
    + scaled_cases 8998192055486251 52%positive Hcases.
    + scaled_cases 8998192055486251 52%positive Hcases.
  - rewrite (int_of_scaled_shift a d 8998192055486251 53); try lia.
    + f_equal. scaled_cases 8998192055486251 53%positive Hcases.
    + scaled_cases 8998192055486251 53%positive Hcases.
    + scaled_cases 8998192055486251 53%positive Hcases.
Qed.

(** * The scenario constructors *)

Lemma exact_floor_div (num : Z) (den : positive) (a : Z) :
  exact_floor num den a = num * a / Zpos den.
Proof.
  unfold exact_floor, Qfloor, Qmult, inject_Z. cbn [Qnum Qden].
  rewrite Pos.mul_1_r. reflexivity.
Qed.

Lemma pool_addr_eth_usdc_hex :
  pool_addr_of_hex POOL_ADDR_ETH_USDC_hex = Ok POOL_ADDR_ETH_USDC.
Proof. reflexivity. Qed.

Lemma pool_addr_wbtc_eth_hex :
  pool_addr_of_hex POOL_ADDR_WBTC_ETH_hex = Ok POOL_ADDR_WBTC_ETH.
Proof. reflexivity. Qed.

Section GeneratorFacts.

Context {R : RandomSource}.

Lemma randint_ok (a b : Z) (s : rng_state) :
  a <= b ->
  exists k s', randint a b s = (Ok k, s') /\ a <= k <= b.
Proof.
  intros Hab. unfold randint.
  destruct (Z.ltb_spec 0 (b + 1 - a)) as [Hw | Hw]; [|lia].
  pose proof (randbelow_range (b + 1 - a) s Hw) as Hr.
  destruct (randbelow (b + 1 - a) s) as [k s'] eqn:E. cbn [fst] in Hr.
  exists (a + k), s'. split; [reflexivity | lia].
Qed.

Lemma choice_pair_ok {A} (x y : A) (s : rng_state) :
  exists z s', choice [x; y] s = (Ok z, s') /\ (z = x \/ z = y).
Proof.
  unfold choice. cbn [List.length Z.of_nat Pos.of_succ_nat Pos.succ].
  assert (Hr : 0 <= fst (randbelow 2 s) < 2) by (apply randbelow_range; lia).
  destruct (randbelow 2 s) as [k s'] eqn:E. cbn [fst] in Hr.
  assert (Hk : k = 0 \/ k = 1) by lia.
  destruct Hk as [-> | ->]; cbn.
  - exists x, s'. auto.
  - exists y, s'. auto.
Qed.

Lemma make_small_swap_event (nonce : Z) (s : rng_state) :
  exists amount dir s',
    1 <= amount <= 999999 /\ (dir = 0 \/ dir = 1) /\
    make_small_swap nonce s =
    (encode_dex_swap_tx nonce POOL_ADDR_ETH_USDC amount 1 dir, s').
Proof.
  unfold make_small_swap, bind, lift.
  destruct (randint_ok 1 999999 s) as (amount & s1 & E1 & H1); [lia|]. rewrite E1.
  destruct (randint_ok 0 1 s1) as (dir & s2 & E2 & H2); [lia|]. rewrite E2.
  exists amount, dir, s2. repeat split; try lia.
Qed.

Lemma make_large_swap_event (nonce : Z) (s : rng_state) :
  exists amount pool dir s',
    10000000 <= amount <= 200000000 /\
    (pool = POOL_ADDR_ETH_USDC \/ pool = POOL_ADDR_WBTC_ETH) /\
    (dir = 0 \/ dir = 1) /\
    make_large_swap nonce s =
    (encode_dex_swap_tx nonce pool amount (9 * amount / 10) dir, s').
Proof.
  unfold make_large_swap, bind, lift.
  destruct (randint_ok 10000000 200000000 s) as (amount & s1 & E1 & H1); [lia|].
  rewrite E1, scaled_090 by assumption.
  destruct (choice_pair_ok POOL_ADDR_ETH_USDC POOL_ADDR_WBTC_ETH s1)
    as (pool & s2 & E2 & H2). rewrite E2.
  destruct (randint_ok 0 1 s2) as (dir & s3 & E3 & H3); [lia|]. rewrite E3.
  exists amount, pool, dir, s3. repeat split; try lia; assumption.
Qed.

Lemma make_tight_slippage_swap_event (nonce : Z) (s : rng_state) :
  exists amount s',
    5000000 <= amount <= 50000000 /\
    make_tight_slippage_swap nonce s =
    (encode_dex_swap_tx nonce POOL_ADDR_ETH_USDC amount (999 * amount / 1000) 0, s').
Proof.
  unfold make_tight_slippage_swap, bind, lift.
  destruct (randint_ok 5000000 50000000 s) as (amount & s1 & E1 & H1); [lia|].
  rewrite E1, scaled_0999 by assumption.
  exists amount, s1. split; [lia | reflexivity].
Qed.

Lemma pool_lengths :
  List.length POOL_ADDR_ETH_USDC = 20%nat /\ List.length POOL_ADDR_WBTC_ETH = 20%nat.
Proof. split; reflexivity. Qed.

(** Every constructor returns a 48-byte payload. *)
Lemma make_scenario_ok (sc : scenario) (nonce : Z) (s : rng_state) :
  exists payload s',
    make_scenario sc nonce s = (Ok payload, s') /\ len payload = WIRE_SIZE.
Proof.
  destruct sc; cbn [make_scenario].
  - destruct (make_small_swap_event nonce s) as (a & d & s' & _ & Hd & E).
    rewrite E, encode_valid by (auto; reflexivity).
    eexists _, s'. split; [reflexivity|].
    unfold len. rewrite length_wire_bytes by reflexivity. reflexivity.
  - destruct (make_large_swap_event nonce s) as (a & p & d & s' & _ & Hp & Hd & E).
    assert (List.length p = 20%nat) by (destruct Hp; subst; reflexivity).
    rewrite E, encode_valid by assumption.
    eexists _, s'. split; [reflexivity|].
    unfold len. rewrite length_wire_bytes by assumption. reflexivity.
  - destruct (make_tight_slippage_swap_event nonce s) as (a & s' & _ & E).
    rewrite E, encode_valid by (auto; reflexivity).
    eexists _, s'. split; [reflexivity|].
    unfold len. rewrite length_wire_bytes by reflexivity. reflexivity.
Qed.

End GeneratorFacts.

(** * Frames *)

Lemma fmt_udp :
  parse_format ">HHHH" = Some (BigEndian, [fmt_H; fmt_H; fmt_H; fmt_H]).
Proof. reflexivity. Qed.

Lemma fmt_ipv4 :
  parse_format ">BBHHHBBH4s4s" =
  Some (BigEndian,
        [fmt_B; fmt_B; fmt_H; fmt_H; fmt_H; fmt_B; fmt_B; fmt_H; fmt_s 4; fmt_s 4]).
Proof. reflexivity. Qed.

Lemma fmt_record : parse_format PCAP_RECORD_HEADER_FMT =
  Some (LittleEndian, [fmt_I; fmt_I; fmt_I; fmt_I]).
Proof. reflexivity. Qed.

Lemma len_nonneg (b : bytes) : 0 <= len b.
Proof. unfold len. lia. Qed.

Lemma len_app (a b : bytes) : len (a ++ b) = len a + len b.
Proof. unfold len. rewrite length_app. lia. Qed.

Lemma pack_udp_header (udp_len : Z) :
  0 <= udp_len < 65536 ->
  Struct.pack ">HHHH"
    [PyInt default_src_port; PyInt default_dst_port; PyInt udp_len; PyInt 0]
  = Ok (udp_header udp_len).
Proof.
  intros H. unfold Struct.pack. rewrite fmt_udp. cbn [pack_items pack_int].
  rewrite !pack_unsigned_ok by (cbn; unfold default_src_port, default_dst_port; lia).
  cbn [rbind int_bytes]. unfold udp_header.
  rewrite <- ?app_assoc. reflexivity.
Qed.

Lemma pack_ipv4_header (ip_len ident : Z) :
  0 <= ip_len < 65536 -> 0 <= ident < 65536 ->
  Struct.pack ">BBHHHBBH4s4s"
    [ PyInt 0x45; PyInt 0; PyInt ip_len; PyInt ident; PyInt 0x4000;
      PyInt 64; PyInt 17; PyInt 0; PyBytes default_ip_src; PyBytes default_ip_dst ]
  = Ok (ipv4_header ip_len ident).
Proof.
  intros H1 H2. unfold Struct.pack. rewrite fmt_ipv4. cbn [pack_items pack_int].
  rewrite !pack_unsigned_ok by (cbn; lia).
  cbn [rbind int_bytes]. unfold ipv4_header.
  rewrite !pack_chars_exact by reflexivity.
  rewrite <- ?app_assoc. reflexivity.
Qed.

Lemma length_udp_header (n : Z) : List.length (udp_header n) = 8%nat.
Proof.
  unfold udp_header. rewrite !length_app, !length_be_bytes. reflexivity.
Qed.

Lemma length_ipv4_header (n i : Z) : List.length (ipv4_header n i) = 20%nat.
Proof.
  unfold ipv4_header. rewrite !length_app, !length_be_bytes. reflexivity.
Qed.

Lemma length_frame_bytes (ident : Z) (payload : bytes) :
  len (frame_bytes ident payload) = 42 + len payload.
Proof.
  unfold frame_bytes, len.
  rewrite !length_app, length_ipv4_header, length_udp_header.
  change (List.length ethernet_header) with 14%nat. lia.
Qed.

Section FrameFacts.

Context {R : RandomSource}.

Lemma frame_ok (payload : bytes) (s : rng_state) :
  len payload <= 65507 ->
  exists ident s',
    1 <= ident <= 65535 /\
    ethernet_ip_udp_frame payload s = (Ok (frame_bytes ident payload), s').
Proof.
  intros Hlen. pose proof (len_nonneg payload) as H0.
  unfold ethernet_ip_udp_frame, ethernet_ip_udp_frame_with, bind, lift, ret.
  rewrite pack_udp_header by lia.
  destruct (randint_ok 1 65535 s) as (ident & s' & E & Hi); [lia|]. rewrite E.
  rewrite pack_ipv4_header by lia.
  exists ident, s'. split; [assumption|].
  unfold frame_bytes, ethernet_header.
  replace (20 + 8 + len payload) with (20 + (8 + len payload)) by lia.
  rewrite <- ?app_assoc. reflexivity.
Qed.

Lemma frame_too_long (payload : bytes) (s : rng_state) :
  65507 < len payload ->
  fst (ethernet_ip_udp_frame payload s) = Raise StructError.
Proof.
  intros Hlen.
  unfold ethernet_ip_udp_frame, ethernet_ip_udp_frame_with, bind, lift, ret.
  destruct (Z_lt_le_dec (8 + len payload) 65536) as [Hu | Hu].
  - rewrite pack_udp_header by (pose proof (len_nonneg payload); lia).
    destruct (randint_ok 1 65535 s) as (ident & s' & E & Hi); [lia|]. rewrite E.
    unfold Struct.pack. rewrite fmt_ipv4. cbn [pack_items pack_int].
    rewrite !pack_unsigned_ok by (cbn; lia). cbn [rbind].
    rewrite pack_unsigned_raise
      by (right; change (2 ^ (8 * Z.of_nat 2)) with 65536; lia).
    reflexivity.
  - unfold Struct.pack. rewrite fmt_udp. cbn [pack_items pack_int].
    rewrite !pack_unsigned_ok by (cbn; unfold default_src_port, default_dst_port; lia).
    cbn [rbind].
    rewrite pack_unsigned_raise
      by (right; change (2 ^ (8 * Z.of_nat 2)) with 65536; lia).
    reflexivity.
Qed.

(** * The main loop *)

Lemma main_iteration_class (m : mode) (i : Z) (s : rng_state) :
  main_iteration m i s = scenario_iteration (class_of m i) i s.
Proof.
  unfold main_iteration, scenario_iteration, class_of.
  destruct m; try reflexivity.
  cbv zeta. destruct (i mod 4 =? 0); [reflexivity|].
  destruct (i mod 4 =? 1); reflexivity.
Qed.

Lemma class_of_mixed (i : Z) : class_of Mixed i = spec_mixed_class i.
Proof.
  unfold class_of, spec_mixed_class.
  destruct (i mod 4) as [|[p|p|]|p]; reflexivity.
Qed.

Lemma scenario_iteration_ok (sc : scenario) (i : Z) (s : rng_state) :
  exists frame s',
    scenario_iteration sc i s = (Ok frame, s') /\ len frame = 90.
Proof.
  unfold scenario_iteration, bind.
  destruct (make_scenario_ok sc i s) as (payload & s1 & E & Hlen). rewrite E.
  rewrite Hlen. cbn [Z.eqb WIRE_SIZE Pos.eqb negb].
  destruct (frame_ok payload s1) as (ident & s2 & Hi & E2).
  { rewrite Hlen. unfold WIRE_SIZE. lia. }
  rewrite E2. exists (frame_bytes ident payload), s2. split; [reflexivity|].
  rewrite length_frame_bytes, Hlen. reflexivity.
Qed.

Lemma main_loop_ok (m : mode) (n : nat) (i : Z) (frames : list bytes) (s : rng_state) :
  exists new s',
    main_loop m n i frames s = (Ok (frames ++ new), s') /\
    List.length new = n /\ Forall (fun f => len f = 90) new.
Proof.
  revert i frames s. induction n as [|n IH]; intros i frames s.
  - exists [], s. cbn. rewrite app_nil_r. auto.
  - cbn [main_loop]. unfold bind at 1.
    rewrite main_iteration_class.
    destruct (scenario_iteration_ok (class_of m i) i s) as (frame & s1 & E & Hf).
    rewrite E.
    destruct (IH (i + 1) (frames ++ [frame]) s1) as (new & s2 & E2 & Hn & Hall).
    rewrite E2. exists (frame :: new), s2. split; [|split].
    + rewrite <- app_assoc. reflexivity.
    + cbn. lia.
    + constructor; assumption.
Qed.

Lemma main_loop_mixed (n : nat) (i : Z) (frames : list bytes) (s : rng_state) :
  main_loop Mixed n i frames s =
  run_scenarios (map spec_mixed_class (indices i n)) i frames s.
Proof.
  revert i frames s. induction n as [|n IH]; intros i frames s.
  - reflexivity.
  - cbn [main_loop indices map run_scenarios]. unfold bind.
    rewrite main_iteration_class, class_of_mixed.
    destruct (scenario_iteration (spec_mixed_class i) i s) as [[frame | e] s1].
    + apply IH.
    + reflexivity.
Qed.

End FrameFacts.

(** * The capture writer *)

Lemma ts_usec_range (i : Z) : 0 <= ts_usec i <= 999000.
Proof. unfold ts_usec. div_lia. Qed.

Lemma ts_monotone (base i j : Z) :
  i <= j ->
  ts_sec base i < ts_sec base j \/
  (ts_sec base i = ts_sec base j /\ ts_usec i <= ts_usec j).
Proof. intros Hij. unfold ts_sec, ts_usec. div_lia. Qed.

Lemma length_record_header_bytes (base i : Z) (frame : bytes) :
  List.length (record_header_bytes base i frame) = 16%nat.
Proof.
  unfold record_header_bytes. rewrite !length_app, !length_le_bytes. reflexivity.
Qed.

Lemma record_header_ok (base i : Z) (frame : bytes) :
  0 <= ts_sec base i < 2 ^ 32 -> len frame < 2 ^ 32 ->
  record_header base i frame = Ok (record_header_bytes base i frame).
Proof.
  intros Hs Hl. pose proof (ts_usec_range i) as Hu. pose proof (len_nonneg frame) as H0.
  unfold record_header, Struct.pack. rewrite fmt_record. cbn [pack_items pack_int].
  fold (ts_sec base i). fold (ts_usec i).
  change (2 ^ 32) with 4294967296 in *.
  rewrite !pack_unsigned_ok by (change (2 ^ (8 * Z.of_nat 4)) with 4294967296; lia).
  cbn [rbind int_bytes]. unfold record_header_bytes.
  rewrite <- ?app_assoc. reflexivity.
Qed.

Lemma record_header_raise (base i : Z) (frame : bytes) :
  ts_sec base i < 0 \/ 2 ^ 32 <= ts_sec base i ->
  record_header base i frame = Raise StructError.
Proof.
  intros Hs.
  unfold record_header, Struct.pack. rewrite fmt_record. cbn [pack_items pack_int].
  fold (ts_sec base i).
  rewrite pack_unsigned_raise by (change (2 ^ (8 * Z.of_nat 4)) with (2 ^ 32); lia).
  reflexivity.
Qed.

Lemma write_frames_fit (base i : Z) (frames : list bytes) (written : bytes) :
  records_fit base i frames ->
  write_frames base i frames written = (written ++ pcap_records base i frames, Ok tt).
Proof.
  revert i written. induction frames as [|frame rest IH]; intros i written Hfit.
  - cbn. rewrite app_nil_r. reflexivity.
  - destruct Hfit as (Hs & Hl & Hrest). cbn [write_frames pcap_records].
    rewrite record_header_ok by assumption.
    rewrite IH by assumption. rewrite <- !app_assoc. reflexivity.
Qed.

Lemma record_header_fields (base i : Z) (frame : bytes) :
  0 <= ts_sec base i < 2 ^ 32 -> len frame < 2 ^ 32 ->
  le_value (slice 0 4 (record_header_bytes base i frame)) = base + i / 1000 /\
  le_value (slice 4 4 (record_header_bytes base i frame)) = (i mod 1000) * 1000 /\
  le_value (slice 8 4 (record_header_bytes base i frame)) = len frame /\
  le_value (slice 12 4 (record_header_bytes base i frame)) = len frame.
Proof.
  intros Hs Hl. pose proof (ts_usec_range i) as Hu. pose proof (len_nonneg frame) as H0.
  unfold record_header_bytes, ts_sec, ts_usec in *.
  set (f1 := le_bytes 4 (base + i / 1000)).
  set (f2 := le_bytes 4 (i mod 1000 * 1000)).
  set (f3 := le_bytes 4 (len frame)).
  assert (L1 : List.length f1 = 4%nat) by apply length_le_bytes.
  assert (L2 : List.length f2 = 4%nat) by apply length_le_bytes.
  assert (L3 : List.length f3 = 4%nat) by apply length_le_bytes.
  change (2 ^ 32) with 4294967296 in *.
  repeat split.
  - rewrite slice_here by assumption. unfold f1. rewrite le_value_le_bytes.
    change (2 ^ (8 * Z.of_nat 4)) with 4294967296. apply Z.mod_small. lia.
  - change 4%nat with (4 + 0)%nat at 1. rewrite (slice_skip 4), slice_here by assumption.
    unfold f2. rewrite le_value_le_bytes.
    change (2 ^ (8 * Z.of_nat 4)) with 4294967296. apply Z.mod_small. lia.
  - change 8%nat with (4 + (4 + 0))%nat. rewrite !(slice_skip 4), slice_here by assumption.
    unfold f3. rewrite le_value_le_bytes.
    change (2 ^ (8 * Z.of_nat 4)) with 4294967296. apply Z.mod_small. lia.
  - change 12%nat with (4 + (4 + (4 + 0)))%nat.
    rewrite !(slice_skip 4), slice_all by assumption.
    unfold f3. rewrite le_value_le_bytes.
    change (2 ^ (8 * Z.of_nat 4)) with 4294967296. apply Z.mod_small. lia.
Qed.

Lemma fs_write_same (fs : filesystem) (name : string) (content : bytes) :
  fs_write fs name content name = Some content.
Proof. unfold fs_write. rewrite String.eqb_refl. reflexivity. Qed.

Lemma write_pcap_file (filename : string) (frames : list bytes) (base : Z) (fs : filesystem) :
  fst (write_pcap filename frames base fs) filename =
    Some (fst (write_frames base 0 frames PCAP_GLOBAL_HEADER)) /\
  snd (write_pcap filename frames base fs) =
    snd (write_frames base 0 frames PCAP_GLOBAL_HEADER).
Proof.
  unfold write_pcap. destruct (write_frames base 0 frames PCAP_GLOBAL_HEADER) as [c r].
  cbn [fst snd]. split; [apply fs_write_same | reflexivity].
Qed.

Lemma generated_frames_fit (i : Z) (frames : list bytes) :
  0 <= i -> i + Z.of_nat (List.length frames) <= 2594967296000 ->
  Forall (fun f => len f = 90) frames ->
  records_fit default_base_ts_sec i frames.
Proof.
  revert i. induction frames as [|frame rest IH]; intros i Hi Hn Hall.
  - exact I.
  - inversion Hall as [|? ? Hf Hr]; subst. cbn [records_fit List.length] in *.
    split; [|split].
    + unfold ts_sec, default_base_ts_sec. change (2 ^ 32) with 4294967296. div_lia.
    + rewrite Hf. reflexivity.
    + apply IH; [lia | lia | assumption].
Qed.

Lemma record_header_raise_len (base i : Z) (frame : bytes) :
  2 ^ 32 <= len frame ->
  record_header base i frame = Raise StructError.
Proof.
  intros Hl. pose proof (ts_usec_range i) as Hu.
  unfold record_header, Struct.pack. rewrite fmt_record. cbn [pack_items pack_int].
  fold (ts_sec base i). fold (ts_usec i).
  unfold pack_unsigned at 1.
  destruct ((0 <=? ts_sec base i) && (ts_sec base i <? 2 ^ (8 * Z.of_nat 4)));
    [|reflexivity].
  cbn [rbind].
  rewrite (pack_unsigned_ok _ 4 (ts_usec i))
    by (change (2 ^ (8 * Z.of_nat 4)) with 4294967296; lia).
  cbn [rbind].
  rewrite pack_unsigned_raise by (right; change (2 ^ (8 * Z.of_nat 4)) with (2 ^ 32); lia).
  reflexivity.
Qed.

(** A record header is packed exactly when the seconds and the frame
    length fit 32 bits. *)
Lemma record_header_cases (base i : Z) (frame : bytes) :
  (0 <= ts_sec base i < 2 ^ 32 /\ len frame < 2 ^ 32 /\
   record_header base i frame = Ok (record_header_bytes base i frame)) \/
  (~ (0 <= ts_sec base i < 2 ^ 32 /\ len frame < 2 ^ 32) /\
   record_header base i frame = Raise StructError).
Proof.
  destruct (Z_le_gt_dec 0 (ts_sec base i)), (Z_lt_le_dec (ts_sec base i) (2 ^ 32)),
    (Z_lt_le_dec (len frame) (2 ^ 32));
    try (left; split; [lia|]; split; [lia|]; apply record_header_ok; lia);
    right; (split; [lia|]);
    try (apply record_header_raise; lia); apply record_header_raise_len; lia.
Qed.

Lemma write_frames_app (base i : Z) (pre rest : list bytes) (written : bytes) :
  records_fit base i pre ->
  write_frames base i (pre ++ rest) written =
  write_frames base (i + Z.of_nat (List.length pre)) rest
    (written ++ pcap_records base i pre).
Proof.
  revert i written. induction pre as [|f pre IH]; intros i written Hfit.
  - cbn. rewrite app_nil_r, Z.add_0_r. reflexivity.
  - destruct Hfit as (Hs & Hl & Hrest). cbn [app write_frames pcap_records List.length].
    rewrite record_header_ok by assumption.
    rewrite IH by assumption. rewrite <- !app_assoc.
    f_equal. lia.
Qed.

(** ** Claims on the encoder *)

(** C1. Field round trip: for all integers [nonce], [amount_in], [min_out]
    (negative and beyond 64 bits included), every 20-byte pool address and
    every direction in {0, 1}, the encoder returns a record, and reading it
    back with the independent layout reader gives the nonce, the amount and
    the minimum amount reduced modulo 2^64, the pool address and the direction
    unchanged, and three zero bytes of padding. *)
Theorem encode_layout_round_trip
  (nonce : Z) (pool : bytes) (amount_in min_out dir : Z) :
  List.length pool = 20%nat -> dir = 0 \/ dir = 1 ->
  exists out,
    encode_dex_swap_tx nonce pool amount_in min_out dir = Ok out /\
    layout_decode out =
      {| dec_nonce := nonce mod 2 ^ 64;
         dec_pool_address := pool;
         dec_amount_in := amount_in mod 2 ^ 64;
         dec_min_amount_out := min_out mod 2 ^ 64;
         dec_token_direction := dir;
         dec_reserved := [x00; x00; x00] |}.
Proof.
  intros Hlen Hdir. exists (wire_bytes nonce pool amount_in min_out dir). split.
  - apply encode_valid; assumption.
  - apply layout_decode_wire_bytes; assumption.
Qed.

Lemma encode_layout_round_trip_witness :
  List.length (repeat x41 20) = 20%nat /\ (1 = 0 \/ 1 = 1) /\
  exists out,
    encode_dex_swap_tx (-1) (repeat x41 20) (2 ^ 64 + 5) (-2 ^ 70 + 258) 1 = Ok out /\
    layout_decode out =
      {| dec_nonce := 2 ^ 64 - 1;
         dec_pool_address := repeat x41 20;
         dec_amount_in := 5;
         dec_min_amount_out := 258;
         dec_token_direction := 1;
         dec_reserved := [x00; x00; x00] |}.
Proof.
  split; [reflexivity | split; [right; reflexivity |]].
  apply (encode_layout_round_trip (-1) (repeat x41 20) (2 ^ 64 + 5) (-2 ^ 70 + 258) 1);
    [reflexivity | right; reflexivity].
Defined.

(** C2. Fixed width: on every valid input (a 20-byte pool address, a
    direction in {0, 1}, any integers for the other fields) the encoder
    returns a byte string of length exactly 48. *)
Theorem encode_length_48
  (nonce : Z) (pool : bytes) (amount_in min_out dir : Z) :
  List.length pool = 20%nat -> dir = 0 \/ dir = 1 ->
  exists out,
    encode_dex_swap_tx nonce pool amount_in min_out dir = Ok out /\
    len out = WIRE_SIZE.
Proof.
  intros Hlen Hdir. exists (wire_bytes nonce pool amount_in min_out dir). split.
  - apply encode_valid; assumption.
  - unfold len. rewrite length_wire_bytes by assumption. reflexivity.
Qed.

Lemma encode_length_48_witness :
  List.length POOL_ADDR_WBTC_ETH = 20%nat /\ (0 = 0 \/ 0 = 1) /\
  exists out,
    encode_dex_swap_tx (2 ^ 80) POOL_ADDR_WBTC_ETH (-3) 0 0 = Ok out /\
    len out = WIRE_SIZE.
Proof.
  split; [reflexivity | split; [left; reflexivity |]].
  apply (encode_length_48 (2 ^ 80) POOL_ADDR_WBTC_ETH (-3) 0 0);
    [reflexivity | left; reflexivity].
Defined.

(** C3. The encoder raises exactly when its precondition is violated: it
    raises an assertion error when the pool address is not 20 bytes long or
    the direction is neither 0 nor 1, and returns a record when the pool
    address is 20 bytes long and the direction is 0 or 1.  In particular it
    raises for pool addresses of 0, 19, 21 and 100 bytes and for the
    directions 2 and 255. *)
Theorem encode_raises_iff_precondition_violated
  (nonce : Z) (pool : bytes) (amount_in min_out dir : Z) :
  ((exists msg, encode_dex_swap_tx nonce pool amount_in min_out dir
                = Raise (AssertionError msg))
   <-> (List.length pool <> 20%nat \/ (dir <> 0 /\ dir <> 1))) /\
  ((exists out, encode_dex_swap_tx nonce pool amount_in min_out dir = Ok out)
   <-> (List.length pool = 20%nat /\ (dir = 0 \/ dir = 1))) /\
  (forall e, encode_dex_swap_tx nonce pool amount_in min_out dir = Raise e ->
             exists msg, e = AssertionError msg) /\
  (In (List.length pool) [0; 19; 21; 100]%nat ->
   is_ok (encode_dex_swap_tx nonce pool amount_in min_out dir) = false) /\
  (In dir [2; 255] ->
   is_ok (encode_dex_swap_tx nonce pool amount_in min_out dir) = false).
Proof.
  destruct (encode_cases nonce pool amount_in min_out dir)
    as [(Hlen & Hdir & E) | [(Hlen & E) | (Hlen & H0 & H1 & E)]]; rewrite E.
  - split; [|split; [|split; [|split]]].
    + split; [intros [msg H]; discriminate H | intros [H | [H0 H1]]; [contradiction | lia]].
    + split; [intros _; auto | intros _; eauto].
    + intros e H. discriminate H.
    + rewrite Hlen. cbn [In]. intros H. exfalso. lia.
    + cbn [In]. intros H. exfalso. lia.
  - split; [|split; [|split; [|split]]].
    + split; [intros _; auto | intros _; eauto].
    + split; [intros [out H]; discriminate H | intros [H _]; contradiction].
    + intros e H. inversion H. eauto.
    + reflexivity.
    + reflexivity.
  - split; [|split; [|split; [|split]]].
    + split; [intros _; auto | intros _; eauto].
    + split; [intros [out H]; discriminate H | intros [_ H]; lia].
    + intros e H. inversion H. eauto.
    + reflexivity.
    + reflexivity.
Qed.

Lemma encode_raises_iff_precondition_violated_witness :
  is_ok (encode_dex_swap_tx 7 (zeros 19) 1000 1 0) = false /\
  is_ok (encode_dex_swap_tx 7 (zeros 20) 1000 1 255) = false /\
  exists out, encode_dex_swap_tx 7 (zeros 20) 1000 1 1 = Ok out.
Proof.
  split; [|split].
  - apply (proj1 (proj2 (proj2 (proj2
      (encode_raises_iff_precondition_violated 7 (zeros 19) 1000 1 0))))).
    cbn. auto.
  - apply (proj2 (proj2 (proj2 (proj2
      (encode_raises_iff_precondition_violated 7 (zeros 20) 1000 1 255))))).
    cbn. auto.
  - apply (proj1 (proj2
      (encode_raises_iff_precondition_violated 7 (zeros 20) 1000 1 1))).
    split; [reflexivity | right; reflexivity].
Defined.

(** C8, as amended.  The global capture header is 24 bytes: magic
    0xA1B2C3D4, version major 2 and minor 4, time zone 0, sigfigs 0, snaplen
    65535, network 1, every field little-endian, the magic number included,
    so that the file starts with the bytes D4 C3 B2 A1. *)
Theorem pcap_global_header_layout :
  PCAP_GLOBAL_HEADER_packed = Ok PCAP_GLOBAL_HEADER /\
  List.length PCAP_GLOBAL_HEADER = 24%nat /\
  PCAP_GLOBAL_HEADER =
    [ xd4; xc3; xb2; xa1;  x02; x00;  x04; x00;  x00; x00; x00; x00;
      x00; x00; x00; x00;  xff; xff; x00; x00;  x01; x00; x00; x00 ] /\
  le_value (slice 0 4 PCAP_GLOBAL_HEADER) = 0xA1B2C3D4 /\
  le_value (slice 4 2 PCAP_GLOBAL_HEADER) = 2 /\
  le_value (slice 6 2 PCAP_GLOBAL_HEADER) = 4 /\
  le_value (slice 8 4 PCAP_GLOBAL_HEADER) = 0 /\
  le_value (slice 12 4 PCAP_GLOBAL_HEADER) = 0 /\
  le_value (slice 16 4 PCAP_GLOBAL_HEADER) = 65535 /\
  le_value (slice 20 4 PCAP_GLOBAL_HEADER) = 1.
Proof.
  repeat split; vm_compute; reflexivity.
Qed.

(** C8, counterexample.  The magic number is no exception to the byte
    order: its four bytes are the little-endian packing of 0xA1B2C3D4,
    D4 C3 B2 A1, and not the pattern A1 B2 C3 D4; read in the other order
    they give 0xD4C3B2A1. *)
Lemma pcap_global_header_magic_counterexample :
  slice 0 4 PCAP_GLOBAL_HEADER = le_bytes 4 0xA1B2C3D4 /\
  slice 0 4 PCAP_GLOBAL_HEADER <> be_bytes 4 0xA1B2C3D4 /\
  slice 0 4 PCAP_GLOBAL_HEADER <> [xa1; xb2; xc3; xd4] /\
  be_value (slice 0 4 PCAP_GLOBAL_HEADER) = 0xD4C3B2A1 /\
  be_value (slice 0 4 PCAP_GLOBAL_HEADER) <> 0xA1B2C3D4.
Proof.
  repeat split; vm_compute; try reflexivity; discriminate.
Qed.

(** * Claims on generation, framing and writing *)

Section Claims.

Context {R : RandomSource}.

Lemma main_succeeds (count : Z) (m : mode) (out : string) (seed : Z) (w : world) :
  count <= 2594967296000 ->
  snd (main count m out seed w) = Ok tt.
Proof.
  intros Hc. unfold main.
  destruct (main_loop_ok m (Z.to_nat count) 0 [] (rng_seed seed))
    as (new & s1 & E & Hn & Hall).
  rewrite E. cbn [app].
  pose proof (write_pcap_file out new default_base_ts_sec (w_fs w)) as [_ Hr].
  destruct (write_pcap out new default_base_ts_sec (w_fs w)) as [fs' r].
  cbn [snd] in *. rewrite Hr, write_frames_fit; [reflexivity|].
  apply generated_frames_fit; [lia | lia | assumption].
Qed.

(** C4. Reproducibility: the file a run writes is a function of
    [(count, mode, seed)] alone.  Two runs with the same count, mode and seed
    both write their output file, and with the same bytes, whatever state
    the random source was in before seeding, whatever the files held before
    and whatever the output paths are; they end in the same way and leave
    the random source in the same state. *)
Theorem main_output_deterministic
  (count : Z) (m : mode) (seed : Z) (out1 out2 : string) (w1 w2 : world) :
  exists content,
    w_fs (fst (main count m out1 seed w1)) out1 = Some content /\
    w_fs (fst (main count m out2 seed w2)) out2 = Some content /\
    snd (main count m out1 seed w1) = snd (main count m out2 seed w2) /\
    w_rng (fst (main count m out1 seed w1)) = w_rng (fst (main count m out2 seed w2)).
Proof.
  unfold main.
  destruct (main_loop_ok m (Z.to_nat count) 0 [] (rng_seed seed))
    as (new & s1 & E & _ & _).
  rewrite E. cbn [app].
  pose proof (write_pcap_file out1 new default_base_ts_sec (w_fs w1)) as [Hc1 Hr1].
  pose proof (write_pcap_file out2 new default_base_ts_sec (w_fs w2)) as [Hc2 Hr2].
  destruct (write_pcap out1 new default_base_ts_sec (w_fs w1)) as [fs1 r1].
  destruct (write_pcap out2 new default_base_ts_sec (w_fs w2)) as [fs2 r2].
  cbn [fst snd w_fs w_rng] in *.
  exists (fst (write_frames default_base_ts_sec 0 new PCAP_GLOBAL_HEADER)).
  repeat split; congruence.
Qed.

(** C5. Mixed mode: the constructor used at index [i] is a function of
    [i mod 4]: small when it is 0, tight when it is 1, large when it is 2 or
    3.  For eight records the classes are small, tight, large, large, small,
    tight, large, large. *)
Theorem mixed_mode_classes :
  (forall i s, main_iteration Mixed i s = scenario_iteration (spec_mixed_class i) i s) /\
  (forall n i frames s,
      main_loop Mixed n i frames s =
      run_scenarios (map spec_mixed_class (indices i n)) i frames s) /\
  map spec_mixed_class (indices 0 8) =
    [ScSmall; ScTight; ScLarge; ScLarge; ScSmall; ScTight; ScLarge; ScLarge] /\
  (forall frames s,
      main_loop Mixed 8 0 frames s =
      run_scenarios
        [ScSmall; ScTight; ScLarge; ScLarge; ScSmall; ScTight; ScLarge; ScLarge]
        0 frames s) /\
  (forall i, (spec_mixed_class i = ScSmall <-> i mod 4 = 0) /\
             (spec_mixed_class i = ScTight <-> i mod 4 = 1) /\
             (spec_mixed_class i = ScLarge <-> (i mod 4 = 2 \/ i mod 4 = 3))).
Proof.
  split; [|split; [|split; [|split]]].
  - intros i s. rewrite main_iteration_class, class_of_mixed. reflexivity.
  - apply main_loop_mixed.
  - reflexivity.
  - intros frames s. rewrite main_loop_mixed. reflexivity.
  - intros i. unfold spec_mixed_class.
    assert (Hr : 0 <= i mod 4 < 4) by (apply Z.mod_pos_bound; lia).
    destruct (i mod 4) as [|[p|p|]|p]; repeat split; intros H;
      try discriminate; try reflexivity; try lia.
Qed.

(** C6, as amended.  For every payload of at most 65507 bytes the frame
    builder returns the 14-byte Ethernet header, the 20-byte IPv4 header, the
    8-byte UDP header and the payload, in this order: 42 + len(payload)
    bytes.  The IPv4 total-length field, at offset 16, holds
    20 + 8 + len(payload) and the UDP length field, at offset 38, holds
    8 + len(payload), both big-endian.  For a longer payload no frame is
    produced: packing a 16-bit length field raises [struct.error]. *)
Theorem frame_layout (payload : bytes) (s : rng_state) :
  (len payload <= 65507 ->
   exists ident s' frame,
     ethernet_ip_udp_frame payload s = (Ok frame, s') /\
     frame = ethernet_header ++ ipv4_header (20 + 8 + len payload) ident
               ++ udp_header (8 + len payload) ++ payload /\
     List.length ethernet_header = 14%nat /\
     List.length (ipv4_header (20 + 8 + len payload) ident) = 20%nat /\
     List.length (udp_header (8 + len payload)) = 8%nat /\
     len frame = 42 + len payload /\
     be_value (slice 16 2 frame) = 20 + 8 + len payload /\
     be_value (slice 38 2 frame) = 8 + len payload) /\
  (65507 < len payload ->
   fst (ethernet_ip_udp_frame payload s) = Raise StructError).
Proof.
  split; [|apply frame_too_long].
  intros Hlen. pose proof (len_nonneg payload) as H0.
  destruct (frame_ok payload s Hlen) as (ident & s' & Hi & E).
  exists ident, s', (frame_bytes ident payload).
  split; [exact E|]. split; [reflexivity|]. split; [reflexivity|].
  split; [apply length_ipv4_header|]. split; [apply length_udp_header|].
  split; [apply length_frame_bytes|].
  unfold frame_bytes. split.
  - unfold ipv4_header.
    change 16%nat with (14 + (2 + 0))%nat.
    rewrite (slice_skip 14) by reflexivity.
    rewrite <- !app_assoc.
    rewrite (slice_skip 2 0 2 [x45; x00]) by reflexivity.
    rewrite slice_here by apply length_be_bytes.
    rewrite be_value_be_bytes. change (2 ^ (8 * Z.of_nat 2)) with 65536.
    apply Z.mod_small. lia.
  - change 38%nat with (14 + (20 + (4 + 0)))%nat.
    rewrite (slice_skip 14) by reflexivity.
    rewrite (slice_skip 20) by apply length_ipv4_header.
    unfold udp_header. rewrite <- !app_assoc.
    rewrite app_assoc.
    rewrite (slice_skip 4) by (rewrite length_app, !length_be_bytes; reflexivity).
    rewrite slice_here by apply length_be_bytes.
    rewrite be_value_be_bytes. change (2 ^ (8 * Z.of_nat 2)) with 65536.
    apply Z.mod_small. lia.
Qed.

(** C7, as amended.  For every list of frames and base timestamp such that
    the seconds field of every frame and every frame length fit 32 bits,
    [write_pcap] writes the global header and then, for the frame at index
    [i], the 16-byte little-endian packing of
    [(base + i div 1000, (i mod 1000) * 1000, len(frame), len(frame))]
    followed by the frame.  The captured length equals the original length,
    the timestamps never decrease, and from index 999 to index 1000 the
    seconds grow by one while the microseconds go from 999000 to 0.  When
    the frames before some frame fit and a value of that frame does not,
    [struct.pack] raises at that frame and nothing more is written: the
    file holds the global header and the records of the frames before it. *)
Theorem write_pcap_records
  (filename : string) (frames : list bytes) (base : Z) (fs : filesystem) :
  (records_fit base 0 frames ->
   write_pcap filename frames base fs =
     (fs_write fs filename (PCAP_GLOBAL_HEADER ++ pcap_records base 0 frames), Ok tt) /\
   (forall i frame,
       List.length (record_header_bytes base i frame) = 16%nat) /\
   (forall i frame,
       0 <= ts_sec base i < 2 ^ 32 -> len frame < 2 ^ 32 ->
       le_value (slice 0 4 (record_header_bytes base i frame)) = base + i / 1000 /\
       le_value (slice 4 4 (record_header_bytes base i frame)) = (i mod 1000) * 1000 /\
       le_value (slice 8 4 (record_header_bytes base i frame)) = len frame /\
       le_value (slice 12 4 (record_header_bytes base i frame)) = len frame) /\
   (forall i j, i <= j ->
       ts_sec base i < ts_sec base j \/
       (ts_sec base i = ts_sec base j /\ ts_usec i <= ts_usec j)) /\
   ts_sec base 1000 = ts_sec base 999 + 1 /\
   ts_usec 999 = 999000 /\ ts_usec 1000 = 0) /\
  (forall pre f post,
      frames = pre ++ f :: post ->
      records_fit base 0 pre ->
      ~ (0 <= ts_sec base (Z.of_nat (List.length pre)) < 2 ^ 32 /\ len f < 2 ^ 32) ->
      write_pcap filename frames base fs =
        (fs_write fs filename (PCAP_GLOBAL_HEADER ++ pcap_records base 0 pre),
         Raise StructError)).
Proof.
  split.
  - intros Hfit. split; [|split; [|split; [|split; [|split; [|split]]]]].
    + unfold write_pcap. rewrite write_frames_fit by assumption. reflexivity.
    + intros i frame. apply length_record_header_bytes.
    + intros i frame. apply record_header_fields.
    + intros i j. apply ts_monotone.
    + unfold ts_sec. change (1000 / 1000) with 1. change (999 / 1000) with 0. lia.
    + reflexivity.
    + reflexivity.
  - intros pre f post -> Hfit Hbad. unfold write_pcap.
    rewrite write_frames_app by assumption. cbn [write_frames]. rewrite Z.add_0_l.
    destruct (record_header_cases base (Z.of_nat (List.length pre)) f)
      as [(H1 & H2 & _) | (_ & E)]; [exfalso; auto|].
    rewrite E. reflexivity.
Qed.

(** C9. Every payload the large profile produces encodes an event whose
    amount lies in [10_000_000, 200_000_000] and whose minimum amount out is
    the exact floor of 9/10 of the amount; every payload the tight profile
    produces encodes an event whose amount lies in [5_000_000, 50_000_000],
    whose minimum amount out is the exact floor of 999/1000 of the amount,
    and whose direction is 0.  The fields read back from the payload are
    those of the event. *)
Theorem large_and_tight_profiles (nonce : Z) (s : rng_state) :
  (exists ev payload s',
      make_large_swap nonce s = (Ok payload, s') /\
      encode_event ev = Ok payload /\
      ev_nonce ev = nonce /\
      10000000 <= ev_amount_in ev <= 200000000 /\
      ev_min_amount_out ev = exact_floor 9 10 (ev_amount_in ev) /\
      dec_amount_in (layout_decode payload) = ev_amount_in ev /\
      dec_min_amount_out (layout_decode payload) = ev_min_amount_out ev) /\
  (exists ev payload s',
      make_tight_slippage_swap nonce s = (Ok payload, s') /\
      encode_event ev = Ok payload /\
      ev_nonce ev = nonce /\
      5000000 <= ev_amount_in ev <= 50000000 /\
      ev_min_amount_out ev = exact_floor 999 1000 (ev_amount_in ev) /\
      ev_token_direction ev = 0 /\
      dec_amount_in (layout_decode payload) = ev_amount_in ev /\
      dec_min_amount_out (layout_decode payload) = ev_min_amount_out ev /\
      dec_token_direction (layout_decode payload) = 0).
Proof.
  split.
  - destruct (make_large_swap_event nonce s) as (a & p & d & s' & Ha & Hp & Hd & E).
    assert (Hl : List.length p = 20%nat) by (destruct Hp; subst; reflexivity).
    exists {| ev_nonce := nonce; ev_pool_address := p; ev_amount_in := a;
              ev_min_amount_out := 9 * a / 10; ev_token_direction := d |},
      (wire_bytes nonce p a (9 * a / 10) d), s'.
    unfold encode_event. cbn [ev_nonce ev_pool_address ev_amount_in
                                ev_min_amount_out ev_token_direction].
    rewrite E, encode_valid by assumption.
    rewrite layout_decode_wire_bytes by assumption.
    cbn [dec_amount_in dec_min_amount_out]. rewrite exact_floor_div.
    repeat split; try lia.
    + apply Z.mod_small. change (2 ^ 64) with 18446744073709551616. lia.
    + apply Z.mod_small. change (2 ^ 64) with 18446744073709551616. div_lia.
  - destruct (make_tight_slippage_swap_event nonce s) as (a & s' & Ha & E).
    assert (Hl : List.length POOL_ADDR_ETH_USDC = 20%nat) by reflexivity.
    assert (Hd : 0 = 0 \/ 0 = 1) by (left; reflexivity).
    exists {| ev_nonce := nonce; ev_pool_address := POOL_ADDR_ETH_USDC;
              ev_amount_in := a; ev_min_amount_out := 999 * a / 1000;
              ev_token_direction := 0 |},
      (wire_bytes nonce POOL_ADDR_ETH_USDC a (999 * a / 1000) 0), s'.
    unfold encode_event. cbn [ev_nonce ev_pool_address ev_amount_in
                                ev_min_amount_out ev_token_direction].
    rewrite E, encode_valid by assumption.
    rewrite layout_decode_wire_bytes by assumption.
    cbn [dec_amount_in dec_min_amount_out dec_token_direction].
    rewrite exact_floor_div.
    repeat split; try lia.
    + apply Z.mod_small. change (2 ^ 64) with 18446744073709551616. lia.
    + apply Z.mod_small. change (2 ^ 64) with 18446744073709551616. div_lia.
Qed.

(** C10. Generation never violates the encoder's preconditions: both pool
    address constants are 20 bytes long, every constructor calls the encoder
    with one of them and with a direction in {0, 1}, so every constructor
    returns a payload of exactly 48 bytes, every loop iteration returns a
    frame, and the loop never ends in an assertion error. *)
Theorem generation_meets_encoder_preconditions :
  List.length POOL_ADDR_ETH_USDC = 20%nat /\
  List.length POOL_ADDR_WBTC_ETH = 20%nat /\
  (forall sc nonce s,
      exists ev s',
        make_scenario sc nonce s = (encode_event ev, s') /\
        List.length (ev_pool_address ev) = 20%nat /\
        (ev_token_direction ev = 0 \/ ev_token_direction ev = 1)) /\
  (forall sc nonce s,
      exists payload s',
        make_scenario sc nonce s = (Ok payload, s') /\ len payload = WIRE_SIZE) /\
  (forall m i s, exists frame s', main_iteration m i s = (Ok frame, s')) /\
  (forall m n i frames s,
      exists frames', fst (main_loop m n i frames s) = Ok frames').
Proof.
  split; [reflexivity|]. split; [reflexivity|].
  split; [|split; [|split]].
  - intros sc nonce s. destruct sc; cbn [make_scenario].
    + destruct (make_small_swap_event nonce s) as (a & d & s' & _ & Hd & E).
      exists {| ev_nonce := nonce; ev_pool_address := POOL_ADDR_ETH_USDC;
                ev_amount_in := a; ev_min_amount_out := 1; ev_token_direction := d |}, s'.
      split; [exact E|]. split; [reflexivity | exact Hd].
    + destruct (make_large_swap_event nonce s) as (a & p & d & s' & _ & Hp & Hd & E).
      exists {| ev_nonce := nonce; ev_pool_address := p; ev_amount_in := a;
                ev_min_amount_out := 9 * a / 10; ev_token_direction := d |}, s'.
      split; [exact E|]. split; [destruct Hp; subst; reflexivity | exact Hd].
    + destruct (make_tight_slippage_swap_event nonce s) as (a & s' & _ & E).
      exists {| ev_nonce := nonce; ev_pool_address := POOL_ADDR_ETH_USDC;
                ev_amount_in := a; ev_min_amount_out := 999 * a / 1000;
                ev_token_direction := 0 |}, s'.
      split; [exact E|]. split; [reflexivity | left; reflexivity].
  - apply make_scenario_ok.
  - intros m i s. rewrite main_iteration_class.
    destruct (scenario_iteration_ok (class_of m i) i s) as (frame & s' & E & _).
    exists frame, s'. exact E.
  - intros m n i frames s.
    destruct (main_loop_ok m n i frames s) as (new & s' & E & _).
    rewrite E. exists (frames ++ new). reflexivity.
Qed.

End Claims.

(** * Instances on concrete inputs *)

Lemma main_output_deterministic_witness :
  exists content,
    w_fs (fst (main 3 Mixed out_a 42 w_empty)) out_a = Some content /\
    w_fs (fst (main 3 Mixed out_b 42 w_used)) out_b = Some content /\
    snd (main 3 Mixed out_a 42 w_empty) = snd (main 3 Mixed out_b 42 w_used) /\
    w_rng (fst (main 3 Mixed out_a 42 w_empty)) =
    w_rng (fst (main 3 Mixed out_b 42 w_used)).
Proof.
  apply (main_output_deterministic (R := lcg_source) 3 Mixed 42 out_a out_b
           w_empty w_used).
Defined.

Lemma mixed_mode_classes_witness :
  spec_mixed_class 6 = ScLarge /\
  forall s, main_iteration (R := lcg_source) Mixed 5 s =
            scenario_iteration (R := lcg_source) ScTight 5 s.
Proof.
  split.
  - apply (proj2 (proj2 (proj2 (proj2 (proj2
      (mixed_mode_classes (R := lcg_source))))) 6)). left. reflexivity.
  - intros s.
    apply (proj1 (mixed_mode_classes (R := lcg_source)) 5 s).
Defined.

Lemma frame_layout_witness :
  len (zeros 48) <= 65507 /\
  exists ident s' frame,
    ethernet_ip_udp_frame (R := lcg_source) (zeros 48) 42 = (Ok frame, s') /\
    frame = ethernet_header ++ ipv4_header (20 + 8 + len (zeros 48)) ident
              ++ udp_header (8 + len (zeros 48)) ++ zeros 48 /\
    List.length ethernet_header = 14%nat /\
    List.length (ipv4_header (20 + 8 + len (zeros 48)) ident) = 20%nat /\
    List.length (udp_header (8 + len (zeros 48))) = 8%nat /\
    len frame = 42 + len (zeros 48) /\
    be_value (slice 16 2 frame) = 20 + 8 + len (zeros 48) /\
    be_value (slice 38 2 frame) = 8 + len (zeros 48).
Proof.
  split.
  - vm_compute. discriminate.
  - apply (proj1 (frame_layout (R := lcg_source) (zeros 48) 42)).
    vm_compute. discriminate.
Defined.

(** C6, counterexample.  A payload of 65508 bytes makes the IPv4 total
    length 65536, which the two-byte field cannot hold: [struct.pack] raises
    and no frame is returned. *)
Lemma frame_layout_counterexample :
  len (zeros (Z.to_nat 65508)) = 65508 /\
  20 + 8 + len (zeros (Z.to_nat 65508)) = 2 ^ 16 /\
  fst (ethernet_ip_udp_frame (R := lcg_source) (zeros (Z.to_nat 65508)) 42)
    = Raise StructError /\
  ~ exists frame s',
      ethernet_ip_udp_frame (R := lcg_source) (zeros (Z.to_nat 65508)) 42
      = (Ok frame, s').
Proof.
  assert (Hl : len (zeros (Z.to_nat 65508)) = 65508).
  { unfold len, zeros. rewrite repeat_length, Z2Nat.id; lia. }
  assert (Hr : fst (ethernet_ip_udp_frame (R := lcg_source) (zeros (Z.to_nat 65508)) 42)
               = Raise StructError).
  { apply frame_too_long. rewrite Hl. lia. }
  split; [exact Hl|]. split; [rewrite Hl; reflexivity|]. split; [exact Hr|].
  intros (frame & s' & E). rewrite E in Hr. discriminate Hr.
Qed.

Lemma write_pcap_records_witness :
  records_fit 1700000000 0 [[x01]; [x02; x03]] /\
  write_pcap out_a [[x01]; [x02; x03]] 1700000000 (fun _ => None) =
    (fs_write (fun _ => None) out_a
       (PCAP_GLOBAL_HEADER ++ pcap_records 1700000000 0 [[x01]; [x02; x03]]), Ok tt).
Proof.
  assert (H : records_fit 1700000000 0 [[x01]; [x02; x03]]).
  { cbn. repeat split; lia. }
  split; [exact H|].
  apply (proj1 (write_pcap_records out_a [[x01]; [x02; x03]] 1700000000
                  (fun _ => None)) H).
Defined.

(** C7, counterexample.  With a base timestamp of 2^32 seconds the seconds
    field of the first frame does not fit 32 bits: [struct.pack] raises, the
    file holds the global header alone and no record header is written. *)
Lemma write_pcap_records_counterexample :
  snd (write_pcap out_a [[x01]] (2 ^ 32) (fun _ => None)) = Raise StructError /\
  fst (write_pcap out_a [[x01]] (2 ^ 32) (fun _ => None)) out_a
    = Some PCAP_GLOBAL_HEADER /\
  fst (write_pcap out_a [[x01]] (2 ^ 32) (fun _ => None)) out_a
    <> Some (PCAP_GLOBAL_HEADER ++ pcap_records (2 ^ 32) 0 [[x01]]).
Proof.
  split; [|split].
  - vm_compute. reflexivity.
  - vm_compute. reflexivity.
  - vm_compute. discriminate.
Qed.

Lemma large_and_tight_profiles_witness :
  exists ev payload s',
    make_large_swap (R := lcg_source) 7 42 = (Ok payload, s') /\
    encode_event ev = Ok payload /\
    ev_nonce ev = 7 /\
    10000000 <= ev_amount_in ev <= 200000000 /\
    ev_min_amount_out ev = exact_floor 9 10 (ev_amount_in ev) /\
    dec_amount_in (layout_decode payload) = ev_amount_in ev /\
    dec_min_amount_out (layout_decode payload) = ev_min_amount_out ev.
Proof.
  apply (proj1 (large_and_tight_profiles (R := lcg_source) 7 42)).
Defined.

Lemma generation_meets_encoder_preconditions_witness :
  exists frames',
    fst (main_loop (R := lcg_source) Mixed 4 0 [] 42) = Ok frames'.
Proof.
  apply (proj2 (proj2 (proj2 (proj2 (proj2
    (generation_meets_encoder_preconditions (R := lcg_source))))))).
Defined.

(** * Examples *)

Example encode_example :
  encode_dex_swap_tx 1 POOL_ADDR_ETH_USDC 258 1 1 =
  Ok ([x01; x00; x00; x00; x00; x00; x00; x00] ++ POOL_ADDR_ETH_USDC
        ++ [x02; x01; x00; x00; x00; x00; x00; x00]
        ++ [x01; x00; x00; x00; x00; x00; x00; x00]
        ++ [x01; x00; x00; x00]).
Proof. reflexivity. Qed.

Example literal_090 :
  PyFloat.of_decimal 90 2 = S754_finite false 8106479329266893 (-53).
Proof. reflexivity. Qed.

Example literal_0999 :
  PyFloat.of_decimal 999 3 = S754_finite false 8998192055486251 (-53).
Proof. reflexivity. Qed.

Example int_of_scaled_example :
  PyFloat.int_of_scaled 123456789 (PyFloat.of_decimal 90 2) = Ok 111111110 /\
  PyFloat.int_of_scaled 50000000 (PyFloat.of_decimal 999 3) = Ok 49950000.
Proof. split; vm_compute; reflexivity. Qed.

Example large_mode_four_frames :
  exists frames s',
    main_loop (R := lcg_source) Large 4 0 [] (rng_seed 42) = (Ok frames, s') /\
    map len frames = [90; 90; 90; 90].
Proof. vm_compute. eexists _, _. split; reflexivity. Qed.

(** * Further properties: the encoder and the scenario constructors *)

(** X1. Two valid calls of the encoder return the same bytes exactly when
    their pool addresses and directions are equal and their nonces, amounts
    and minimum amounts are congruent modulo 2^64: the encoder is injective
    on 64-bit fields, and adding a multiple of 2^64 to a field changes
    nothing. *)
Theorem encode_equal_iff
  (n1 n2 : Z) (p1 p2 : bytes) (a1 a2 m1 m2 d1 d2 : Z) :
  List.length p1 = 20%nat -> List.length p2 = 20%nat ->
  d1 = 0 \/ d1 = 1 -> d2 = 0 \/ d2 = 1 ->
  (encode_dex_swap_tx n1 p1 a1 m1 d1 = encode_dex_swap_tx n2 p2 a2 m2 d2
   <-> n1 mod 2 ^ 64 = n2 mod 2 ^ 64 /\ p1 = p2 /\
       a1 mod 2 ^ 64 = a2 mod 2 ^ 64 /\ m1 mod 2 ^ 64 = m2 mod 2 ^ 64 /\ d1 = d2).
Proof.
  intros Hp1 Hp2 Hd1 Hd2.
  rewrite !encode_valid by assumption. split.
  - intros H.
    apply (f_equal (fun r => match r with
                             | Ok b => layout_decode b
                             | Raise _ => layout_decode []
                             end)) in H.
    cbv beta iota in H.
    rewrite !layout_decode_wire_bytes in H by assumption.
    injection H as Hn Hp Ha Hm Hd. auto.
  - intros (Hn & -> & Ha & Hm & ->). unfold wire_bytes.
    rewrite Hn, Ha, Hm. reflexivity.
Qed.

Lemma encode_equal_iff_witness :
  encode_dex_swap_tx (2 ^ 64 + 7) POOL_ADDR_ETH_USDC (-1) 5 1 =
  encode_dex_swap_tx 7 POOL_ADDR_ETH_USDC (2 ^ 64 - 1) (5 - 2 ^ 65) 1.
Proof.
  apply (encode_equal_iff (2 ^ 64 + 7) 7 POOL_ADDR_ETH_USDC POOL_ADDR_ETH_USDC
           (-1) (2 ^ 64 - 1) 5 (5 - 2 ^ 65) 1 1);
    [reflexivity | reflexivity | right; reflexivity | right; reflexivity |].
  repeat split; reflexivity.
Defined.

Section ScenarioFields.

Context {R : RandomSource}.

(** Every constructor returns a payload whose record has the nonce reduced
    modulo 2^64, zero padding, and the fields of the constructor's class. *)
Lemma make_scenario_record (sc : scenario) (nonce : Z) (s : rng_state) :
  exists payload s',
    make_scenario sc nonce s = (Ok payload, s') /\
    List.length payload = 48%nat /\
    dec_nonce (layout_decode payload) = nonce mod 2 ^ 64 /\
    dec_reserved (layout_decode payload) = [x00; x00; x00] /\
    event_in_class sc (layout_decode payload).
Proof.
  destruct sc; cbn [make_scenario event_in_class].
  - destruct (make_small_swap_event nonce s) as (a & d & s' & Ha & Hd & E).
    exists (wire_bytes nonce POOL_ADDR_ETH_USDC a 1 d), s'.
    rewrite E, encode_valid by (auto; reflexivity).
    rewrite layout_decode_wire_bytes by (auto; reflexivity).
    rewrite length_wire_bytes by reflexivity.
    cbn [dec_nonce dec_reserved dec_pool_address dec_amount_in dec_min_amount_out
           dec_token_direction].
    rewrite (Z.mod_small a) by (change (2 ^ 64) with 18446744073709551616; lia).
    repeat split; auto; lia.
  - destruct (make_large_swap_event nonce s) as (a & p & d & s' & Ha & Hp & Hd & E).
    assert (Hl : List.length p = 20%nat) by (destruct Hp; subst; reflexivity).
    exists (wire_bytes nonce p a (9 * a / 10) d), s'.
    rewrite E, encode_valid by assumption.
    rewrite layout_decode_wire_bytes by assumption.
    rewrite length_wire_bytes by assumption.
    cbn [dec_nonce dec_reserved dec_pool_address dec_amount_in dec_min_amount_out
           dec_token_direction].
    rewrite (Z.mod_small a) by (change (2 ^ 64) with 18446744073709551616; lia).
    rewrite (Z.mod_small (9 * a / 10))
      by (change (2 ^ 64) with 18446744073709551616; div_lia).
    repeat split; auto; lia.
  - destruct (make_tight_slippage_swap_event nonce s) as (a & s' & Ha & E).
    exists (wire_bytes nonce POOL_ADDR_ETH_USDC a (999 * a / 1000) 0), s'.
    rewrite E, encode_valid by (auto; reflexivity).
    rewrite layout_decode_wire_bytes by (auto; reflexivity).
    rewrite length_wire_bytes by reflexivity.
    cbn [dec_nonce dec_reserved dec_pool_address dec_amount_in dec_min_amount_out
           dec_token_direction].
    rewrite (Z.mod_small a) by (change (2 ^ 64) with 18446744073709551616; lia).
    rewrite (Z.mod_small (999 * a / 1000))
      by (change (2 ^ 64) with 18446744073709551616; div_lia).
    repeat split; auto; lia.
Qed.

(** X2. Every payload of [make_small_swap] reads back as: the nonce modulo
    2^64, the ETH/USDC pool, an amount in [1, 999_999] (below one million),
    a minimum amount out of 1 and a direction of 0 or 1. *)
Theorem make_small_swap_fields (nonce : Z) (s : rng_state) :
  exists payload s',
    make_small_swap nonce s = (Ok payload, s') /\
    dec_nonce (layout_decode payload) = nonce mod 2 ^ 64 /\
    dec_pool_address (layout_decode payload) = POOL_ADDR_ETH_USDC /\
    1 <= dec_amount_in (layout_decode payload) <= 999999 /\
    dec_min_amount_out (layout_decode payload) = 1 /\
    (dec_token_direction (layout_decode payload) = 0 \/
     dec_token_direction (layout_decode payload) = 1).
Proof.
  destruct (make_scenario_record ScSmall nonce s)
    as (payload & s' & E & _ & Hn & _ & Hp & Ha & Hm & Hd).
  exists payload, s'. cbn [make_scenario] in E. auto 10.
Qed.

(** X3. Every payload of [make_large_swap] names one of the two pool
    constants and a direction of 0 or 1, and its minimum amount out lies
    below the amount by a tenth of the amount, rounded up: the tolerated
    slippage is 10 percent, at least 1_000_000 units. *)
Theorem make_large_swap_fields (nonce : Z) (s : rng_state) :
  exists payload s',
    make_large_swap nonce s = (Ok payload, s') /\
    dec_nonce (layout_decode payload) = nonce mod 2 ^ 64 /\
    (dec_pool_address (layout_decode payload) = POOL_ADDR_ETH_USDC \/
     dec_pool_address (layout_decode payload) = POOL_ADDR_WBTC_ETH) /\
    (dec_token_direction (layout_decode payload) = 0 \/
     dec_token_direction (layout_decode payload) = 1) /\
    dec_amount_in (layout_decode payload) - dec_min_amount_out (layout_decode payload)
      = (dec_amount_in (layout_decode payload) + 9) / 10 /\
    1000000 <= dec_amount_in (layout_decode payload)
               - dec_min_amount_out (layout_decode payload) <= 20000000.
Proof.
  destruct (make_scenario_record ScLarge nonce s)
    as (payload & s' & E & _ & Hn & _ & Hp & Ha & Hm & Hd).
  exists payload, s'. cbn [make_scenario] in E.
  rewrite Hm. repeat split; auto; div_lia.
Qed.

(** X4. Every payload of [make_tight_slippage_swap] names the ETH/USDC pool
    and direction 0, and its minimum amount out lies below the amount by a
    thousandth of the amount, rounded up: between 5_000 and 50_000 units. *)
Theorem make_tight_slippage_swap_fields (nonce : Z) (s : rng_state) :
  exists payload s',
    make_tight_slippage_swap nonce s = (Ok payload, s') /\
    dec_nonce (layout_decode payload) = nonce mod 2 ^ 64 /\
    dec_pool_address (layout_decode payload) = POOL_ADDR_ETH_USDC /\
    dec_token_direction (layout_decode payload) = 0 /\
    dec_amount_in (layout_decode payload) - dec_min_amount_out (layout_decode payload)
      = (dec_amount_in (layout_decode payload) + 999) / 1000 /\
    5000 <= dec_amount_in (layout_decode payload)
            - dec_min_amount_out (layout_decode payload) <= 50000.
Proof.
  destruct (make_scenario_record ScTight nonce s)
    as (payload & s' & E & _ & Hn & _ & Hp & Ha & Hm & Hd).
  exists payload, s'. cbn [make_scenario] in E.
  rewrite Hm. repeat split; auto; div_lia.
Qed.

End ScenarioFields.

(** * Further properties: frames *)

Lemma be_bytes_2 (v : Z) : be_bytes 2 v = [byte_of_Z (v / 256); byte_of_Z v].
Proof. reflexivity. Qed.

Lemma pack_udp_header_with (src_port dst_port udp_len : Z) :
  0 <= src_port < 65536 -> 0 <= dst_port < 65536 -> 0 <= udp_len < 65536 ->
  Struct.pack ">HHHH" [PyInt src_port; PyInt dst_port; PyInt udp_len; PyInt 0]
  = Ok (be_bytes 2 src_port ++ be_bytes 2 dst_port ++ be_bytes 2 udp_len ++ [x00; x00]).
Proof.
  intros H1 H2 H3. unfold Struct.pack. rewrite fmt_udp. cbn [pack_items pack_int].
  rewrite !pack_unsigned_ok by (change (2 ^ (8 * Z.of_nat 2)) with 65536; lia).
  cbn [rbind int_bytes]. rewrite <- ?app_assoc. reflexivity.
Qed.

Lemma pack_udp_header_raise (src_port dst_port udp_len : Z) :
  ~ (0 <= src_port < 65536 /\ 0 <= dst_port < 65536 /\ 0 <= udp_len < 65536) ->
  Struct.pack ">HHHH" [PyInt src_port; PyInt dst_port; PyInt udp_len; PyInt 0]
  = Raise StructError.
Proof.
  intros H. unfold Struct.pack. rewrite fmt_udp. cbn [pack_items pack_int].
  unfold pack_unsigned. change (2 ^ (8 * Z.of_nat 2)) with 65536.
  destruct (Z.leb_spec 0 src_port), (Z.ltb_spec src_port 65536); cbn [andb rbind];
    try reflexivity;
    destruct (Z.leb_spec 0 dst_port), (Z.ltb_spec dst_port 65536); cbn [andb rbind];
    try reflexivity;
    destruct (Z.leb_spec 0 udp_len), (Z.ltb_spec udp_len 65536); cbn [andb rbind];
    try reflexivity; lia.
Qed.

Lemma pack_ipv4_header_with (ip_len ident : Z) (ip_src ip_dst : bytes) :
  0 <= ip_len < 65536 -> 0 <= ident < 65536 ->
  Struct.pack ">BBHHHBBH4s4s"
    [ PyInt 0x45; PyInt 0; PyInt ip_len; PyInt ident; PyInt 0x4000;
      PyInt 64; PyInt 17; PyInt 0; PyBytes ip_src; PyBytes ip_dst ]
  = Ok ([x45; x00] ++ be_bytes 2 ip_len ++ be_bytes 2 ident
          ++ [x40; x00; x40; x11; x00; x00]
          ++ pack_chars 4 ip_src ++ pack_chars 4 ip_dst).
Proof.
  intros H1 H2. unfold Struct.pack. rewrite fmt_ipv4. cbn [pack_items pack_int].
  rewrite !pack_unsigned_ok by (cbn; lia).
  cbn [rbind int_bytes]. rewrite <- ?app_assoc, app_nil_r. reflexivity.
Qed.

Lemma pack_ipv4_header_raise (ip_len ident : Z) (ip_src ip_dst : bytes) :
  65536 <= ip_len ->
  Struct.pack ">BBHHHBBH4s4s"
    [ PyInt 0x45; PyInt 0; PyInt ip_len; PyInt ident; PyInt 0x4000;
      PyInt 64; PyInt 17; PyInt 0; PyBytes ip_src; PyBytes ip_dst ]
  = Raise StructError.
Proof.
  intros H. unfold Struct.pack. rewrite fmt_ipv4. cbn [pack_items pack_int].
  rewrite !pack_unsigned_ok by (cbn; lia). cbn [rbind].
  rewrite pack_unsigned_raise
    by (right; change (2 ^ (8 * Z.of_nat 2)) with 65536; lia).
  reflexivity.
Qed.

Lemma frame_bytes_explicit (ident : Z) (payload : bytes) :
  frame_bytes ident payload =
  [ x02; x00; x00; x00; x00; x01;  x00; x11; x22; x33; x44; x55;  x08; x00;
    x45; x00 ] ++ be_bytes 2 (20 + 8 + len payload) ++ be_bytes 2 ident
    ++ [ x40; x00;  x40; x11;  x00; x00;  xc0; xa8; x45; x01;  xc0; xa8; x45; x02;
         xd4; x31;  x1f; x90 ] ++ be_bytes 2 (8 + len payload) ++ [ x00; x00 ]
    ++ payload.
Proof. reflexivity. Qed.

Section FrameProperties.

Context {R : RandomSource}.

(** X5. With any addressing (two 4-byte addresses, ports that fit 16
    bits, MAC addresses of any length) and a payload of at most 65507
    bytes, the frame builder returns the two MAC addresses as given, the
    IPv4 ethertype, an IPv4 header with version and header length 0x45, the
    total length, an identification drawn from [1, 65535], the
    don't-fragment flag, TTL 64, protocol 17 and a zero checksum, the two
    addresses, a UDP header with the ports, the length and a zero checksum,
    and the payload.  It draws from the random source once. *)
Theorem frame_with_layout
  (payload ip_src ip_dst : bytes) (src_port dst_port : Z) (src_mac dst_mac : bytes)
  (s : rng_state) :
  len payload <= 65507 -> 0 <= src_port < 65536 -> 0 <= dst_port < 65536 ->
  List.length ip_src = 4%nat -> List.length ip_dst = 4%nat ->
  exists ident s',
    randint 1 65535 s = (Ok ident, s') /\ 1 <= ident <= 65535 /\
    ethernet_ip_udp_frame_with payload ip_src ip_dst src_port dst_port src_mac dst_mac s
    = (Ok (dst_mac ++ src_mac ++ [x08; x00]
             ++ ([x45; x00] ++ be_bytes 2 (20 + (8 + len payload)) ++ be_bytes 2 ident
                   ++ [x40; x00; x40; x11; x00; x00] ++ ip_src ++ ip_dst)
             ++ (be_bytes 2 src_port ++ be_bytes 2 dst_port
                   ++ be_bytes 2 (8 + len payload) ++ [x00; x00])
             ++ payload), s') /\
    len (dst_mac ++ src_mac ++ [x08; x00]
           ++ ([x45; x00] ++ be_bytes 2 (20 + (8 + len payload)) ++ be_bytes 2 ident
                 ++ [x40; x00; x40; x11; x00; x00] ++ ip_src ++ ip_dst)
           ++ (be_bytes 2 src_port ++ be_bytes 2 dst_port
                 ++ be_bytes 2 (8 + len payload) ++ [x00; x00])
           ++ payload)
    = len dst_mac + len src_mac + 30 + len payload.
Proof.
  intros Hlen Hs Hd Hi1 Hi2. pose proof (len_nonneg payload) as H0.
  unfold ethernet_ip_udp_frame_with, bind, lift, ret.
  rewrite pack_udp_header_with by lia.
  destruct (randint_ok 1 65535 s) as (ident & s' & E & Hi); [lia|]. rewrite E.
  rewrite pack_ipv4_header_with by lia.
  rewrite !pack_chars_exact by assumption.
  exists ident, s'. split; [reflexivity|]. split; [lia|]. split; [reflexivity|].
  unfold len. rewrite !length_app, !length_be_bytes, Hi1, Hi2. cbn [List.length]. lia.
Qed.

(** X6. With any addressing whose two addresses [inet_aton] accepts, the
    frame builder returns a frame exactly when both ports lie in
    [0, 65535] and the payload has at most 65507 bytes; in every other case
    it raises [struct.error]. *)
Theorem frame_with_ok_or_struct_error
  (payload ip_src ip_dst : bytes) (src_port dst_port : Z) (src_mac dst_mac : bytes)
  (s : rng_state) :
  ((0 <= src_port < 65536 /\ 0 <= dst_port < 65536 /\ len payload <= 65507) /\
   exists frame,
     fst (ethernet_ip_udp_frame_with payload ip_src ip_dst src_port dst_port
            src_mac dst_mac s) = Ok frame) \/
  (~ (0 <= src_port < 65536 /\ 0 <= dst_port < 65536 /\ len payload <= 65507) /\
   fst (ethernet_ip_udp_frame_with payload ip_src ip_dst src_port dst_port
          src_mac dst_mac s) = Raise StructError).
Proof.
  pose proof (len_nonneg payload) as H0.
  destruct (Z_le_gt_dec 0 src_port), (Z_lt_le_dec src_port 65536),
    (Z_le_gt_dec 0 dst_port), (Z_lt_le_dec dst_port 65536),
    (Z_le_gt_dec (len payload) 65507);
    try (right; split; [lia|];
         unfold ethernet_ip_udp_frame_with, bind, lift, ret;
         rewrite pack_udp_header_raise by lia; reflexivity).
  - left. split; [lia|].
    unfold ethernet_ip_udp_frame_with, bind, lift, ret.
    rewrite pack_udp_header_with by lia.
    destruct (randint_ok 1 65535 s) as (ident & s' & E & Hi); [lia|]. rewrite E.
    rewrite pack_ipv4_header_with by lia.
    eexists. reflexivity.
  - right. split; [lia|].
    unfold ethernet_ip_udp_frame_with, bind, lift, ret.
    destruct (Z_lt_le_dec (8 + len payload) 65536).
    + rewrite pack_udp_header_with by lia.
      destruct (randint_ok 1 65535 s) as (ident & s' & E & Hi); [lia|]. rewrite E.
      rewrite pack_ipv4_header_raise by lia. reflexivity.
    + rewrite pack_udp_header_raise by lia. reflexivity.
Qed.

(** X7. In a frame built with the default addressing the payload sits
    unchanged at offset 42, after the fixed header fields: destination MAC
    02:00:00:00:00:01, source MAC 00:11:22:33:44:55, ethertype 0x0800,
    version and header length 0x45, an identification in [1, 65535],
    flags 0x4000, TTL 64, protocol 17, IPv4 checksum 0, addresses
    192.168.69.1 and 192.168.69.2, ports 54321 and 8080, UDP checksum 0. *)
Theorem frame_header_fields (payload : bytes) (s : rng_state) :
  len payload <= 65507 ->
  exists frame s',
    ethernet_ip_udp_frame payload s = (Ok frame, s') /\
    slice 0 6 frame = [x02; x00; x00; x00; x00; x01] /\
    slice 6 6 frame = [x00; x11; x22; x33; x44; x55] /\
    be_value (slice 12 2 frame) = 0x0800 /\
    be_value (slice 14 1 frame) = 0x45 /\
    be_value (slice 15 1 frame) = 0 /\
    1 <= be_value (slice 18 2 frame) <= 65535 /\
    be_value (slice 20 2 frame) = 0x4000 /\
    be_value (slice 22 1 frame) = 64 /\
    be_value (slice 23 1 frame) = 17 /\
    be_value (slice 24 2 frame) = 0 /\
    map Z_of_byte (slice 26 4 frame) = [192; 168; 69; 1] /\
    map Z_of_byte (slice 30 4 frame) = [192; 168; 69; 2] /\
    be_value (slice 34 2 frame) = 54321 /\
    be_value (slice 36 2 frame) = 8080 /\
    be_value (slice 40 2 frame) = 0 /\
    slice 42 (List.length payload) frame = payload.
Proof.
  intros Hlen.
  destruct (frame_ok payload s Hlen) as (ident & s' & Hi & E).
  exists (frame_bytes ident payload), s'. split; [exact E|].
  rewrite frame_bytes_explicit, !be_bytes_2.
  repeat split; try reflexivity.
  - change (slice 18 2 _) with (be_bytes 2 ident).
    rewrite be_value_be_bytes. change (2 ^ (8 * Z.of_nat 2)) with 65536.
    rewrite Z.mod_small; lia.
  - change (slice 18 2 _) with (be_bytes 2 ident).
    rewrite be_value_be_bytes. change (2 ^ (8 * Z.of_nat 2)) with 65536.
    rewrite Z.mod_small; lia.
  - unfold slice. cbn [skipn app]. apply firstn_all.
Qed.

End FrameProperties.

Lemma frame_with_layout_witness :
  exists ident s' frame,
    randint (R := lcg_source) 1 65535 42 = (Ok ident, s') /\
    ethernet_ip_udp_frame_with (R := lcg_source) [x01; x02]
      [x0a; x00; x00; x01] [x0a; x00; x00; x02] 53 40000 [xaa] [] 42
    = (Ok frame, s') /\
    len frame = len [] + len [xaa] + 30 + len [x01; x02].
Proof.
  destruct (frame_with_layout (R := lcg_source) [x01; x02]
              [x0a; x00; x00; x01] [x0a; x00; x00; x02] 53 40000 [xaa] [] 42)
    as (ident & s' & E1 & _ & E2 & L); try (cbn; lia); try reflexivity.
  exists ident, s'. eexists. split; [exact E1|]. split; [exact E2 | exact L].
Defined.

Lemma frame_header_fields_witness :
  exists frame s',
    ethernet_ip_udp_frame (R := lcg_source) [x01; x02; x03] 42 = (Ok frame, s') /\
    slice 42 3 frame = [x01; x02; x03].
Proof.
  destruct (frame_header_fields (R := lcg_source) [x01; x02; x03] 42)
    as (frame & s' & E & H); [cbn; lia|].
  exists frame, s'. split; [exact E|]. apply H.
Defined.

(** * Further properties: the capture writer *)

Lemma total_len_nonneg (frames : list bytes) : 0 <= total_len frames.
Proof.
  induction frames as [|f rest IH]; [reflexivity|].
  cbn [total_len fold_right]. fold (total_len rest).
  pose proof (len_nonneg f). lia.
Qed.

Lemma len_pcap_records (base i : Z) (frames : list bytes) :
  len (pcap_records base i frames) =
  16 * Z.of_nat (List.length frames) + total_len frames.
Proof.
  revert i. induction frames as [|f rest IH]; intros i.
  - reflexivity.
  - cbn [pcap_records total_len fold_right List.length].
    rewrite !len_app, IH. fold (total_len rest).
    unfold len at 1. rewrite length_record_header_bytes. lia.
Qed.

Lemma read_records_step (k : nat) (b : bytes) :
  (0 < List.length b)%nat ->
  read_records (S k) b =
  if (List.length b <? 16)%nat then None
  else
    if (List.length (skipn 16 b) <? Z.to_nat (le_value (slice 8 4 b)))%nat then None
    else
      option_map
        (cons {| pkt_ts_sec := le_value (slice 0 4 b);
                 pkt_ts_usec := le_value (slice 4 4 b);
                 pkt_incl_len := le_value (slice 8 4 b);
                 pkt_orig_len := le_value (slice 12 4 b);
                 pkt_data := firstn (Z.to_nat (le_value (slice 8 4 b))) (skipn 16 b) |})
        (read_records k (skipn (Z.to_nat (le_value (slice 8 4 b))) (skipn 16 b))).
Proof.
  intros Hb. destruct b; [cbn in Hb; lia | reflexivity].
Qed.

Lemma read_records_packets (base i : Z) (frames : list bytes) (fuel : nat) :
  records_fit base i frames ->
  (List.length frames <= fuel)%nat ->
  read_records fuel (pcap_records base i frames) = Some (packets_of base i frames).
Proof.
  revert i fuel. induction frames as [|f rest IH]; intros i fuel Hfit Hfuel.
  - destruct fuel; reflexivity.
  - destruct Hfit as (Hs & Hl & Hrest).
    destruct fuel as [|k]; [cbn in Hfuel; lia|].
    cbn [pcap_records packets_of].
    pose proof (record_header_fields base i f Hs Hl) as (F1 & F2 & F3 & F4).
    pose proof (length_record_header_bytes base i f) as L16.
    set (hdr := record_header_bytes base i f) in *.
    set (tail := pcap_records base (i + 1) rest).
    assert (Hs0 : forall off n, (off + n <= 16)%nat ->
                  slice off n (hdr ++ f ++ tail) = slice off n hdr).
    { intros off n Hon. unfold slice. rewrite skipn_app, firstn_app.
      rewrite length_skipn, L16.
      replace (n - (16 - off))%nat with 0%nat by lia.
      replace (off - 16)%nat with 0%nat by lia.
      cbn [firstn skipn]. apply app_nil_r. }
    rewrite read_records_step by (rewrite length_app, L16; lia).
    rewrite !Hs0 by lia. rewrite F1, F2, F3, F4.
    assert (Hlen : List.length (hdr ++ f ++ tail) = (16 + List.length (f ++ tail))%nat)
      by (rewrite length_app, L16; reflexivity).
    rewrite Hlen.
    destruct (Nat.ltb_spec (16 + List.length (f ++ tail)) 16) as [Hlt|_]; [lia|].
    assert (Hsk : skipn 16 (hdr ++ f ++ tail) = f ++ tail).
    { rewrite skipn_app, L16, Nat.sub_diag, skipn_all2 by lia. reflexivity. }
    rewrite Hsk. unfold len. rewrite Nat2Z.id.
    destruct (Nat.ltb_spec (List.length (f ++ tail)) (List.length f)) as [Hlt|_];
      [rewrite length_app in Hlt; lia|].
    rewrite firstn_app, Nat.sub_diag, firstn_all. cbn [firstn]. rewrite app_nil_r.
    rewrite skipn_app, Nat.sub_diag, skipn_all2 by lia. cbn [skipn app].
    unfold tail. rewrite IH by (try assumption; cbn in Hfuel; lia).
    reflexivity.
Qed.

Lemma read_pcap_header (body : bytes) :
  read_pcap (PCAP_GLOBAL_HEADER ++ body) =
  read_records (24 + List.length body) body.
Proof.
  unfold read_pcap.
  assert (Hs : forall off n, (off + n <= 24)%nat ->
               slice off n (PCAP_GLOBAL_HEADER ++ body) = slice off n PCAP_GLOBAL_HEADER).
  { intros off n Hon. unfold slice. rewrite skipn_app, firstn_app.
    rewrite length_skipn. change (List.length PCAP_GLOBAL_HEADER) with 24%nat.
    replace (n - (24 - off))%nat with 0%nat by lia.
    replace (off - 24)%nat with 0%nat by lia.
    cbn [firstn skipn]. apply app_nil_r. }
  rewrite !Hs by lia.
  change (le_value (slice 0 4 PCAP_GLOBAL_HEADER) =? 2712847316) with true.
  change (le_value (slice 4 2 PCAP_GLOBAL_HEADER) =? 2) with true.
  change (le_value (slice 6 2 PCAP_GLOBAL_HEADER) =? 4) with true.
  change (le_value (slice 20 4 PCAP_GLOBAL_HEADER) =? 1) with true.
  rewrite len_app. change (len PCAP_GLOBAL_HEADER) with 24.
  pose proof (len_nonneg body).
  destruct (Z.leb_spec 24 (24 + len body)); [|lia].
  cbn [andb]. rewrite length_app. reflexivity.
Qed.

Lemma records_fit_intro (base i : Z) (frames : list bytes) :
  0 <= base -> 0 <= i ->
  base + (i + Z.of_nat (List.length frames) - 1) / 1000 < 2 ^ 32 ->
  Forall (fun f => len f < 2 ^ 32) frames ->
  records_fit base i frames.
Proof.
  revert i. induction frames as [|f rest IH]; intros i Hb Hi Hlast Hall.
  - exact I.
  - inversion Hall as [|? ? Hf Hr]; subst. cbn [records_fit List.length] in *.
    split; [|split].
    + unfold ts_sec. change (2 ^ 32) with 4294967296 in *. div_lia.
    + assumption.
    + apply IH; try assumption; try lia.
      replace (i + 1 + Z.of_nat (List.length rest) - 1)
        with (i + Z.of_nat (S (List.length rest)) - 1) by lia.
      assumption.
Qed.

(** X8. When the frames up to some frame all fit their record headers and
    that frame does not (its seconds field falls outside 32 bits or it has
    2^32 bytes or more), [write_pcap] raises [struct.error] and leaves a
    file that holds the global header and the records of the frames before
    it, and nothing of the frames from it on. *)
Theorem write_pcap_stops_at_first_misfit
  (filename : string) (pre : list bytes) (f : bytes) (post : list bytes)
  (base : Z) (fs : filesystem) :
  records_fit base 0 pre ->
  ~ (0 <= ts_sec base (Z.of_nat (List.length pre)) < 2 ^ 32 /\ len f < 2 ^ 32) ->
  write_pcap filename (pre ++ f :: post) base fs =
  (fs_write fs filename (PCAP_GLOBAL_HEADER ++ pcap_records base 0 pre),
   Raise StructError).
Proof.
  intros Hfit Hbad. unfold write_pcap.
  rewrite write_frames_app by assumption. cbn [write_frames]. rewrite Z.add_0_l.
  destruct (record_header_cases base (Z.of_nat (List.length pre)) f)
    as [(H1 & H2 & _) | (_ & E)]; [exfalso; auto|].
  rewrite E. reflexivity.
Qed.

Lemma write_pcap_stops_at_first_misfit_witness :
  write_pcap out_a (repeat [x01] 1000 ++ [x02] :: [[x03]]) (2 ^ 32 - 1) (fun _ => None) =
  (fs_write (fun _ => None) out_a
     (PCAP_GLOBAL_HEADER ++ pcap_records (2 ^ 32 - 1) 0 (repeat [x01] 1000)),
   Raise StructError).
Proof.
  apply (write_pcap_stops_at_first_misfit out_a (repeat [x01] 1000) [x02] [[x03]]
           (2 ^ 32 - 1)).
  - apply records_fit_intro.
    + lia.
    + lia.
    + rewrite repeat_length. reflexivity.
    + apply Forall_forall. intros f Hf. apply repeat_spec in Hf. subst f. reflexivity.
  - rewrite repeat_length. unfold ts_sec.
    change (Z.of_nat 1000 / 1000) with 1. lia.
Defined.

(** What a reader finds in the file [write_pcap] writes. *)
Lemma written_file_read
  (filename : string) (frames : list bytes) (base : Z) (fs : filesystem) :
  records_fit base 0 frames ->
  fst (write_pcap filename frames base fs) filename
    = Some (PCAP_GLOBAL_HEADER ++ pcap_records base 0 frames) /\
  read_pcap (PCAP_GLOBAL_HEADER ++ pcap_records base 0 frames)
    = Some (packets_of base 0 frames).
Proof.
  intros Hfit. unfold write_pcap. rewrite write_frames_fit by assumption.
  cbn [fst]. split; [apply fs_write_same|].
  rewrite read_pcap_header. apply read_records_packets; [assumption|].
  pose proof (len_pcap_records base 0 frames) as Hn.
  pose proof (total_len_nonneg frames). unfold len in Hn. lia.
Qed.

(** X9. Round trip through the file: when every record header fits, a
    reader of the capture format gets back from the file [write_pcap] wrote
    one packet per frame, in order, with the frame's bytes as data, the
    frame length as both captured and original length, and the timestamp
    [(base + i div 1000, (i mod 1000) * 1000)] of its index. *)
Theorem write_pcap_read_back
  (filename : string) (frames : list bytes) (base : Z) (fs : filesystem) :
  records_fit base 0 frames ->
  exists content,
    fst (write_pcap filename frames base fs) filename = Some content /\
    read_pcap content = Some (packets_of base 0 frames) /\
    map pkt_data (packets_of base 0 frames) = frames /\
    len content = 24 + 16 * Z.of_nat (List.length frames) + total_len frames.
Proof.
  intros Hfit.
  destruct (written_file_read filename frames base fs Hfit) as [Hfile Hread].
  exists (PCAP_GLOBAL_HEADER ++ pcap_records base 0 frames).
  split; [exact Hfile|]. split; [|split].
  - exact Hread.
  - clear Hfit Hfile Hread. generalize 0.
    induction frames as [|f rest IH]; intros i; [reflexivity|].
    cbn [packets_of map pkt_data]. f_equal. apply IH.
  - rewrite len_app, len_pcap_records. change (len PCAP_GLOBAL_HEADER) with 24. lia.
Qed.

Lemma write_pcap_read_back_witness :
  exists content,
    fst (write_pcap out_a [[x01]; []; [x02; x03]] 1700000000 (fun _ => None)) out_a
      = Some content /\
    read_pcap content = Some (packets_of 1700000000 0 [[x01]; []; [x02; x03]]) /\
    map pkt_data (packets_of 1700000000 0 [[x01]; []; [x02; x03]])
      = [[x01]; []; [x02; x03]] /\
    len content = 24 + 16 * Z.of_nat (List.length [[x01]; []; [x02; x03]])
                  + total_len [[x01]; []; [x02; x03]].
Proof.
  apply (write_pcap_read_back out_a [[x01]; []; [x02; x03]] 1700000000 (fun _ => None)).
  cbn. repeat split; lia.
Defined.

(** X10. Packets are one millisecond apart: whenever the record headers of
    the frames at indices [i] and [j] are packed, the time of the second,
    in microseconds, is the time of the first plus [1000 * (j - i)]; the
    time at index [i] is [base * 10^6 + 1000 * i]. *)
Theorem record_headers_one_millisecond_apart
  (base i j : Z) (fi fj hi hj : bytes) :
  record_header base i fi = Ok hi ->
  record_header base j fj = Ok hj ->
  le_value (slice 0 4 hi) * 1000000 + le_value (slice 4 4 hi)
    = base * 1000000 + 1000 * i /\
  le_value (slice 0 4 hj) * 1000000 + le_value (slice 4 4 hj)
    = le_value (slice 0 4 hi) * 1000000 + le_value (slice 4 4 hi) + 1000 * (j - i).
Proof.
  intros Ei Ej.
  destruct (record_header_cases base i fi) as [(Hs & Hl & E) | (_ & E)];
    rewrite E in Ei; [|discriminate Ei]. injection Ei as <-.
  destruct (record_header_cases base j fj) as [(Hs' & Hl' & E') | (_ & E')];
    rewrite E' in Ej; [|discriminate Ej]. injection Ej as <-.
  destruct (record_header_fields base i fi Hs Hl) as (A1 & A2 & _).
  destruct (record_header_fields base j fj Hs' Hl') as (B1 & B2 & _).
  rewrite A1, A2, B1, B2. split; div_lia.
Qed.

Lemma record_headers_one_millisecond_apart_witness :
  exists hi hj,
    record_header 1700000000 999 [x01] = Ok hi /\
    record_header 1700000000 1000 [x02] = Ok hj /\
    le_value (slice 0 4 hj) * 1000000 + le_value (slice 4 4 hj)
    = le_value (slice 0 4 hi) * 1000000 + le_value (slice 4 4 hi) + 1000 * (1000 - 999).
Proof.
  exists (record_header_bytes 1700000000 999 [x01]),
    (record_header_bytes 1700000000 1000 [x02]).
  assert (E1 : record_header 1700000000 999 [x01]
               = Ok (record_header_bytes 1700000000 999 [x01])) by reflexivity.
  assert (E2 : record_header 1700000000 1000 [x02]
               = Ok (record_header_bytes 1700000000 1000 [x02])) by reflexivity.
  split; [exact E1|]. split; [exact E2|].
  apply (record_headers_one_millisecond_apart 1700000000 999 1000 [x01] [x02] _ _ E1 E2).
Defined.

(** * Further properties: a whole run *)

Lemma frame_record_frame_bytes (ident : Z) (payload : bytes) :
  List.length payload = 48%nat ->
  slice 42 48 (frame_bytes ident payload) = payload.
Proof.
  intros Hl. rewrite frame_bytes_explicit, !be_bytes_2.
  unfold slice. cbn [skipn app]. rewrite <- Hl. apply firstn_all.
Qed.

Lemma frame_bytes_lengths (ident : Z) (payload : bytes) :
  List.length payload = 48%nat ->
  be_value (slice 16 2 (frame_bytes ident payload)) = 76 /\
  be_value (slice 38 2 (frame_bytes ident payload)) = 56.
Proof.
  intros Hl. rewrite frame_bytes_explicit, !be_bytes_2. unfold len. rewrite Hl.
  split; reflexivity.
Qed.

Section RunProperties.

Context {R : RandomSource}.

Lemma scenario_iteration_record (sc : scenario) (i : Z) (s : rng_state) :
  exists frame s',
    scenario_iteration sc i s = (Ok frame, s') /\
    len frame = 90 /\
    be_value (slice 16 2 frame) = 76 /\
    be_value (slice 38 2 frame) = 56 /\
    dec_nonce (frame_record frame) = i mod 2 ^ 64 /\
    dec_reserved (frame_record frame) = [x00; x00; x00] /\
    event_in_class sc (frame_record frame).
Proof.
  unfold scenario_iteration, bind.
  destruct (make_scenario_record sc i s) as (payload & s1 & E & Hl & Hn & Hr & Hc).
  rewrite E.
  assert (Hlen : len payload = WIRE_SIZE) by (unfold len; rewrite Hl; reflexivity).
  rewrite Hlen. cbn [Z.eqb WIRE_SIZE Pos.eqb negb].
  destruct (frame_ok payload s1) as (ident & s2 & Hi & E2).
  { rewrite Hlen. unfold WIRE_SIZE. lia. }
  rewrite E2. exists (frame_bytes ident payload), s2.
  unfold frame_record. rewrite frame_record_frame_bytes by assumption.
  destruct (frame_bytes_lengths ident payload Hl) as [L1 L2].
  split; [reflexivity|]. split.
  { rewrite length_frame_bytes, Hlen. reflexivity. }
  auto 10.
Qed.

Lemma main_loop_generated
  (m : mode) (n : nat) (i : Z) (frames : list bytes) (s : rng_state) :
  exists new s',
    main_loop m n i frames s = (Ok (frames ++ new), s') /\
    List.length new = n /\ frames_generated m i new.
Proof.
  revert i frames s. induction n as [|n IH]; intros i frames s.
  - exists [], s. cbn. rewrite app_nil_r. auto.
  - cbn [main_loop]. unfold bind at 1.
    rewrite main_iteration_class.
    destruct (scenario_iteration_record (class_of m i) i s)
      as (frame & s1 & E & H90 & H76 & H56 & Hn & Hr & Hc).
    rewrite E.
    destruct (IH (i + 1) (frames ++ [frame]) s1) as (new & s2 & E2 & Hlen & Hgen).
    rewrite E2. exists (frame :: new), s2. split; [|split].
    + rewrite <- app_assoc. reflexivity.
    + cbn. lia.
    + cbn [frames_generated]. auto 10.
Qed.

Lemma frames_generated_len (m : mode) (i : Z) (frames : list bytes) :
  frames_generated m i frames -> Forall (fun f => len f = 90) frames.
Proof.
  revert i. induction frames as [|f rest IH]; intros i H; constructor.
  - apply H.
  - apply (IH (i + 1)). apply H.
Qed.

Lemma total_len_90 (frames : list bytes) :
  Forall (fun f => len f = 90) frames ->
  total_len frames = 90 * Z.of_nat (List.length frames).
Proof.
  induction 1 as [|f rest Hf _ IH]; [reflexivity|].
  cbn [total_len fold_right List.length]. fold (total_len rest). lia.
Qed.

Lemma frames_generated_nth (m : mode) (i : Z) (frames : list bytes) (k : nat) (f : bytes) :
  frames_generated m i frames -> nth_error frames k = Some f ->
  len f = 90 /\
  be_value (slice 16 2 f) = 76 /\
  be_value (slice 38 2 f) = 56 /\
  dec_nonce (frame_record f) = (i + Z.of_nat k) mod 2 ^ 64 /\
  dec_reserved (frame_record f) = [x00; x00; x00] /\
  event_in_class (class_of m (i + Z.of_nat k)) (frame_record f).
Proof.
  revert i k. induction frames as [|g rest IH]; intros i k Hgen Hnth.
  - destruct k; discriminate Hnth.
  - destruct Hgen as (H1 & H2 & H3 & H4 & H5 & H6 & Hrest). destruct k as [|k].
    + cbn in Hnth. injection Hnth as <-. rewrite Z.add_0_r. auto 10.
    + cbn [nth_error] in Hnth.
      replace (i + Z.of_nat (S k)) with (i + 1 + Z.of_nat k) by lia.
      apply IH; assumption.
Qed.

Lemma packets_of_nth (base i : Z) (frames : list bytes) (k : nat) (p : pcap_packet) :
  nth_error (packets_of base i frames) k = Some p ->
  nth_error frames k = Some (pkt_data p) /\
  pkt_ts_sec p = base + (i + Z.of_nat k) / 1000 /\
  pkt_ts_usec p = ((i + Z.of_nat k) mod 1000) * 1000 /\
  pkt_incl_len p = len (pkt_data p) /\
  pkt_orig_len p = len (pkt_data p).
Proof.
  revert i k. induction frames as [|g rest IH]; intros i k Hnth.
  - destruct k; discriminate Hnth.
  - destruct k as [|k].
    + cbn in Hnth. injection Hnth as <-. rewrite Z.add_0_r. cbn. auto.
    + cbn [packets_of nth_error] in Hnth. cbn [nth_error].
      replace (i + Z.of_nat (S k)) with (i + 1 + Z.of_nat k) by lia.
      apply IH. assumption.
Qed.

Lemma length_packets_of (base i : Z) (frames : list bytes) :
  List.length (packets_of base i frames) = List.length frames.
Proof.
  revert i. induction frames as [|f rest IH]; intros i; [reflexivity|].
  cbn. rewrite IH. reflexivity.
Qed.

(** X11. For every count up to 2_594_967_296_000, every mode and every
    seed, [main] ends normally and the output file holds the 24-byte global
    header followed by exactly [max(count, 0)] records of 16 + 90 bytes, so
    [24 + 106 * max(count, 0)] bytes; a count of zero or less leaves a file
    with the header alone.  No other file is changed. *)
Theorem main_writes_count_records
  (count : Z) (m : mode) (out : string) (seed : Z) (w : world) :
  count <= 2594967296000 ->
  exists frames,
    snd (main count m out seed w) = Ok tt /\
    List.length frames = Z.to_nat count /\
    Forall (fun f => len f = 90) frames /\
    w_fs (fst (main count m out seed w)) out
      = Some (PCAP_GLOBAL_HEADER ++ pcap_records default_base_ts_sec 0 frames) /\
    len (PCAP_GLOBAL_HEADER ++ pcap_records default_base_ts_sec 0 frames)
      = 24 + 106 * Z.max 0 count /\
    (forall name, name <> out ->
                  w_fs (fst (main count m out seed w)) name = w_fs w name).
Proof.
  intros Hc. unfold main.
  destruct (main_loop_generated m (Z.to_nat count) 0 [] (rng_seed seed))
    as (new & s1 & E & Hn & Hgen).
  rewrite E. cbn [app].
  pose proof (frames_generated_len m 0 new Hgen) as Hall.
  assert (Hfit : records_fit default_base_ts_sec 0 new)
    by (apply generated_frames_fit; [lia | lia | assumption]).
  unfold write_pcap. rewrite write_frames_fit by assumption.
  cbn [fst snd w_fs].
  exists new. split; [reflexivity|]. split; [assumption|]. split; [assumption|].
  split; [apply fs_write_same|]. split.
  - rewrite len_app, len_pcap_records, total_len_90 by assumption.
    change (len PCAP_GLOBAL_HEADER) with 24. lia.
  - intros name Hne. unfold fs_write.
    destruct (String.eqb_spec name out); [contradiction | reflexivity].
Qed.

(** X12. End to end: reading back the file [main] wrote, for a count up to
    2_594_967_296_000, gives [max(count, 0)] packets.  The packet at index
    [i] has the timestamp [(1_700_000_000 + i div 1000, (i mod 1000) * 1000)],
    captured and original length 90, an IPv4 total length of 76 and a UDP
    length of 56; the 48 bytes at offset 42 of its data are a record with
    nonce [i], zero padding, and the pool, amounts and direction of the class
    the mode gives index [i]. *)
Theorem main_file_read_back
  (count : Z) (m : mode) (out : string) (seed : Z) (w : world) :
  count <= 2594967296000 ->
  exists content pkts,
    w_fs (fst (main count m out seed w)) out = Some content /\
    read_pcap content = Some pkts /\
    List.length pkts = Z.to_nat count /\
    forall (i : nat) (p : pcap_packet),
      nth_error pkts i = Some p ->
      pkt_ts_sec p = 1700000000 + Z.of_nat i / 1000 /\
      pkt_ts_usec p = (Z.of_nat i mod 1000) * 1000 /\
      pkt_incl_len p = 90 /\ pkt_orig_len p = 90 /\
      be_value (slice 16 2 (pkt_data p)) = 76 /\
      be_value (slice 38 2 (pkt_data p)) = 56 /\
      dec_nonce (frame_record (pkt_data p)) = Z.of_nat i /\
      dec_reserved (frame_record (pkt_data p)) = [x00; x00; x00] /\
      event_in_class (class_of m (Z.of_nat i)) (frame_record (pkt_data p)).
Proof.
  intros Hc. unfold main.
  destruct (main_loop_generated m (Z.to_nat count) 0 [] (rng_seed seed))
    as (new & s1 & E & Hn & Hgen).
  rewrite E. cbn [app].
  pose proof (frames_generated_len m 0 new Hgen) as Hall.
  assert (Hfit : records_fit default_base_ts_sec 0 new)
    by (apply generated_frames_fit; [lia | lia | assumption]).
  destruct (written_file_read out new default_base_ts_sec (w_fs w) Hfit)
    as [Hfile Hread].
  destruct (write_pcap out new default_base_ts_sec (w_fs w)) as [fs' r].
  cbn [fst w_fs] in *.
  exists (PCAP_GLOBAL_HEADER ++ pcap_records default_base_ts_sec 0 new),
    (packets_of default_base_ts_sec 0 new).
  split; [assumption|]. split; [assumption|].
  split; [rewrite length_packets_of; assumption|].
  intros i p Hnth.
  assert (Hi : (i < Z.to_nat count)%nat).
  { rewrite <- Hn, <- (length_packets_of default_base_ts_sec 0 new).
    apply nth_error_Some. rewrite Hnth. discriminate. }
  destruct (packets_of_nth _ _ _ _ _ Hnth) as (Hf & T1 & T2 & L1 & L2).
  destruct (frames_generated_nth m 0 new i (pkt_data p) Hgen Hf)
    as (H90 & H76 & H56 & Hnonce & Hres & Hcls).
  rewrite Z.add_0_l in *.
  rewrite T1, T2, L1, L2, H90, Hnonce.
  rewrite (Z.mod_small (Z.of_nat i) (2 ^ 64))
    by (change (2 ^ 64) with 18446744073709551616; lia).
  unfold default_base_ts_sec. auto 12.
Qed.

(** X13. Mixed mode over any [4 * k] consecutive indices runs the
    constructors of a list of classes that holds [k] times small, [k]
    times tight and [2 * k] times large: a quarter, a quarter and a half. *)
Theorem mixed_mode_distribution (i : Z) (k : nat) :
  exists classes,
    (forall frames s,
        main_loop Mixed (4 * k) i frames s = run_scenarios classes i frames s) /\
    List.length classes = (4 * k)%nat /\
    count_occ scenario_eq_dec classes ScSmall = k /\
    count_occ scenario_eq_dec classes ScTight = k /\
    count_occ scenario_eq_dec classes ScLarge = (2 * k)%nat.
Proof.
  exists (map spec_mixed_class (indices i (4 * k))).
  split; [intros frames s; apply main_loop_mixed|].
  revert i. induction k as [|k IH]; intros i.
  - cbn. auto.
  - replace (4 * S k)%nat with (S (S (S (S (4 * k))))) by lia.
    cbn [indices map List.length].
    replace (i + 1 + 1 + 1 + 1) with (i + 4) by lia.
    destruct (IH (i + 4)) as (Hl & Hs & Ht & HL).
    split; [rewrite Hl; reflexivity|].
    rewrite <- !class_of_mixed. unfold class_of.
    cbn [count_occ].
    rewrite Hs, Ht, HL.
    replace (i + 1 + 1) with (i + 2) by lia.
    replace (i + 2 + 1) with (i + 3) by lia.
    assert (Hr : i mod 4 = 0 \/ i mod 4 = 1 \/ i mod 4 = 2 \/ i mod 4 = 3)
      by div_lia.
    destruct Hr as [H0 | [H0 | [H0 | H0]]].
    + replace ((i + 1) mod 4) with 1 by div_lia.
      replace ((i + 2) mod 4) with 2 by div_lia.
      replace ((i + 3) mod 4) with 3 by div_lia.
      rewrite H0. cbn. repeat split; lia.
    + replace ((i + 1) mod 4) with 2 by div_lia.
      replace ((i + 2) mod 4) with 3 by div_lia.
      replace ((i + 3) mod 4) with 0 by div_lia.
      rewrite H0. cbn. repeat split; lia.
    + replace ((i + 1) mod 4) with 3 by div_lia.
      replace ((i + 2) mod 4) with 0 by div_lia.
      replace ((i + 3) mod 4) with 1 by div_lia.
      rewrite H0. cbn. repeat split; lia.
    + replace ((i + 1) mod 4) with 0 by div_lia.
      replace ((i + 2) mod 4) with 1 by div_lia.
      replace ((i + 3) mod 4) with 2 by div_lia.
      rewrite H0. cbn. repeat split; lia.
Qed.

End RunProperties.

Lemma main_writes_count_records_witness :
  exists frames,
    snd (main (R := lcg_source) 5 Mixed out_a 42 w_used) = Ok tt /\
    List.length frames = Z.to_nat 5 /\
    Forall (fun f => len f = 90) frames /\
    w_fs (fst (main (R := lcg_source) 5 Mixed out_a 42 w_used)) out_a
      = Some (PCAP_GLOBAL_HEADER ++ pcap_records default_base_ts_sec 0 frames) /\
    len (PCAP_GLOBAL_HEADER ++ pcap_records default_base_ts_sec 0 frames)
      = 24 + 106 * Z.max 0 5 /\
    (forall name, name <> out_a ->
                  w_fs (fst (main (R := lcg_source) 5 Mixed out_a 42 w_used)) name
                  = w_fs w_used name).
Proof.
  apply (main_writes_count_records (R := lcg_source) 5 Mixed out_a 42 w_used). lia.
Defined.

Lemma main_file_read_back_witness :
  exists content pkts,
    w_fs (fst (main (R := lcg_source) 3 Large out_a 7 w_empty)) out_a = Some content /\
    read_pcap content = Some pkts /\
    List.length pkts = Z.to_nat 3.
Proof.
  destruct (main_file_read_back (R := lcg_source) 3 Large out_a 7 w_empty)
    as (content & pkts & H1 & H2 & H3 & _); [lia|].
  exists content, pkts. auto.
Defined.

(** * Further properties: pool addresses and the randomness of a frame *)

Lemma str_length_append (s t : string) :
  String.length (s ++ t)%string = (String.length s + String.length t)%nat.
Proof.
  induction s as [|c s IH]; [reflexivity|]. cbn. rewrite IH. reflexivity.
Qed.

Lemma str_length_take (n : nat) (s : string) :
  String.length (str_take n s) = Nat.min n (String.length s).
Proof.
  revert s. induction n as [|n IH]; intros s; [reflexivity|].
  destruct s as [|c s]; [reflexivity|]. cbn. rewrite IH. reflexivity.
Qed.

Lemma str_length_repeat (c : ascii) (n : nat) : String.length (str_repeat c n) = n.
Proof.
  induction n as [|n IH]; [reflexivity|]. cbn. rewrite IH. reflexivity.
Qed.

Lemma str_forall_append (p : ascii -> bool) (s t : string) :
  str_forall p (s ++ t)%string = str_forall p s && str_forall p t.
Proof.
  induction s as [|c s IH]; [reflexivity|]. cbn. rewrite IH. apply andb_assoc.
Qed.

Lemma str_forall_repeat (p : ascii -> bool) (c : ascii) (n : nat) :
  p c = true -> str_forall p (str_repeat c n) = true.
Proof.
  intros Hc. induction n as [|n IH]; [reflexivity|]. cbn. rewrite Hc, IH. reflexivity.
Qed.

Lemma length_ljust_take (h : string) :
  String.length (str_ljust 40 "0" (str_take 40 h)) = 40%nat.
Proof.
  unfold str_ljust. rewrite str_length_append, str_length_repeat, str_length_take. lia.
Qed.

Lemma bytes_fromhex_hex (n : nat) (s : string) :
  String.length s = (2 * n)%nat -> str_forall is_hex s = true ->
  exists b, bytes_fromhex s = Ok b /\ List.length b = n.
Proof.
  revert s. induction n as [|n IH]; intros s Hl Hh.
  - destruct s; [|discriminate Hl]. exists []. auto.
  - destruct s as [|hi [|lo rest]]; try (cbn in Hl; lia).
    cbn [str_forall] in Hh. apply andb_prop in Hh as [Hhi Hh].
    apply andb_prop in Hh as [Hlo Hrest].
    destruct (IH rest) as (b & E & Hb); [cbn in Hl; lia | assumption |].
    cbn [bytes_fromhex]. unfold is_hex in Hhi, Hlo.
    destruct (hex_digit hi) as [h|]; [|discriminate Hhi].
    destruct (hex_digit lo) as [l|]; [|discriminate Hlo].
    rewrite E. cbn [rbind]. eexists. split; [reflexivity|]. cbn. rewrite Hb. reflexivity.
Qed.

(** X14. The expression that builds a pool address constant,
    [bytes.fromhex(h[:40].ljust(40, "0"))], gives exactly 20 bytes for
    every string [h] whose first 40 characters are hexadecimal digits,
    whatever the length of [h]: a longer string is cut to 40 digits, a
    shorter one is filled with zero digits. *)
Theorem pool_addr_of_hex_20_bytes (h : string) :
  str_forall is_hex (str_take 40 h) = true ->
  exists b, pool_addr_of_hex h = Ok b /\ List.length b = 20%nat.
Proof.
  intros Hh. unfold pool_addr_of_hex.
  apply (bytes_fromhex_hex 20); [apply length_ljust_take|].
  unfold str_ljust. rewrite str_forall_append, str_forall_repeat by reflexivity.
  rewrite Hh. reflexivity.
Qed.

Section FrameRandomness.

Context {R : RandomSource}.

(** X15. The random source reaches a frame only through the IPv4
    identification: two frames built with the default addressing from the
    same payload, in any two states of the random source, have the same
    length, the same first 18 bytes and the same bytes from offset 20 on. *)
Theorem frame_random_only_in_identification
  (payload : bytes) (s1 s2 : rng_state) (f1 f2 : bytes) (t1 t2 : rng_state) :
  ethernet_ip_udp_frame payload s1 = (Ok f1, t1) ->
  ethernet_ip_udp_frame payload s2 = (Ok f2, t2) ->
  List.length f1 = List.length f2 /\
  firstn 18 f1 = firstn 18 f2 /\
  skipn 20 f1 = skipn 20 f2.
Proof.
  intros E1 E2.
  destruct (Z_le_gt_dec (len payload) 65507) as [Hl | Hl].
  - destruct (frame_ok payload s1 Hl) as (i1 & u1 & _ & F1).
    destruct (frame_ok payload s2 Hl) as (i2 & u2 & _ & F2).
    rewrite F1 in E1. rewrite F2 in E2.
    injection E1 as <- _. injection E2 as <- _.
    rewrite !frame_bytes_explicit, !be_bytes_2.
    repeat split; cbn; reflexivity.
  - pose proof (frame_too_long payload s1) as Hr. rewrite E1 in Hr.
    cbn [fst] in Hr. discriminate Hr. lia.
Qed.

End FrameRandomness.

Lemma frame_random_only_in_identification_witness :
  exists f1 f2 t1 t2,
    ethernet_ip_udp_frame (R := lcg_source) [x01; x02] 1 = (Ok f1, t1) /\
    ethernet_ip_udp_frame (R := lcg_source) [x01; x02] 2 = (Ok f2, t2) /\
    f1 <> f2 /\
    firstn 18 f1 = firstn 18 f2 /\ skipn 20 f1 = skipn 20 f2.
Proof.
  eexists _, _, _, _.
  split; [vm_compute; reflexivity|]. split; [vm_compute; reflexivity|].
  split; [discriminate|].
  apply (frame_random_only_in_identification (R := lcg_source) [x01; x02] 1 2
           _ _ _ _ eq_refl eq_refl).
Defined.

(** * Further instances on concrete inputs *)

Lemma make_small_swap_fields_witness :
  exists payload s',
    make_small_swap (R := lcg_source) (2 ^ 64 + 3) 42 = (Ok payload, s') /\
    dec_nonce (layout_decode payload) = 3 /\
    dec_min_amount_out (layout_decode payload) = 1.
Proof.
  destruct (make_small_swap_fields (R := lcg_source) (2 ^ 64 + 3) 42)
    as (payload & s' & E & Hn & _ & _ & Hm & _).
  exists payload, s'. auto.
Defined.

Lemma make_large_swap_fields_witness :
  exists payload s',
    make_large_swap (R := lcg_source) 1 42 = (Ok payload, s') /\
    1000000 <= dec_amount_in (layout_decode payload)
               - dec_min_amount_out (layout_decode payload) <= 20000000.
Proof.
  destruct (make_large_swap_fields (R := lcg_source) 1 42)
    as (payload & s' & E & _ & _ & _ & _ & H).
  exists payload, s'. auto.
Defined.

Lemma make_tight_slippage_swap_fields_witness :
  exists payload s',
    make_tight_slippage_swap (R := lcg_source) 1 42 = (Ok payload, s') /\
    dec_token_direction (layout_decode payload) = 0 /\
    5000 <= dec_amount_in (layout_decode payload)
            - dec_min_amount_out (layout_decode payload) <= 50000.
Proof.
  destruct (make_tight_slippage_swap_fields (R := lcg_source) 1 42)
    as (payload & s' & E & _ & _ & Hd & _ & H).
  exists payload, s'. auto.
Defined.

Lemma frame_with_ok_or_struct_error_witness :
  fst (ethernet_ip_udp_frame_with (R := lcg_source) [x01] default_ip_src default_ip_dst
         65536 8080 default_src_mac default_dst_mac 42) = Raise StructError /\
  fst (ethernet_ip_udp_frame_with (R := lcg_source) [x01] default_ip_src default_ip_dst
         54321 (-1) default_src_mac default_dst_mac 42) = Raise StructError.
Proof.
  split.
  - destruct (frame_with_ok_or_struct_error (R := lcg_source) [x01] default_ip_src
                default_ip_dst 65536 8080 default_src_mac default_dst_mac 42)
      as [[H _] | [_ H]]; [lia | exact H].
  - destruct (frame_with_ok_or_struct_error (R := lcg_source) [x01] default_ip_src
                default_ip_dst 54321 (-1) default_src_mac default_dst_mac 42)
      as [[H _] | [_ H]]; [lia | exact H].
Defined.

Lemma mixed_mode_distribution_witness :
  exists classes,
    (forall frames s,
        main_loop (R := lcg_source) Mixed (4 * 3) 5 frames s
        = run_scenarios classes 5 frames s) /\
    List.length classes = (4 * 3)%nat /\
    count_occ scenario_eq_dec classes ScSmall = 3%nat /\
    count_occ scenario_eq_dec classes ScTight = 3%nat /\
    count_occ scenario_eq_dec classes ScLarge = (2 * 3)%nat.
Proof.
  apply (mixed_mode_distribution (R := lcg_source) 5 3).
Defined.

Lemma pool_addr_of_hex_20_bytes_witness :
  (exists b, pool_addr_of_hex "abc" = Ok b /\ List.length b = 20%nat) /\
  (exists b,
     pool_addr_of_hex "00112233445566778899aAbBcCdDeEfF0011223344556677" = Ok b /\
     List.length b = 20%nat).
Proof.
  split.
  - apply (pool_addr_of_hex_20_bytes "abc"). reflexivity.
  - apply (pool_addr_of_hex_20_bytes
             "00112233445566778899aAbBcCdDeEfF0011223344556677").
    reflexivity.
Defined.
